(** * obc-ca/obcca/tlsca.go: the TLS certificate authority's gRPC handlers

    A shallow embedding of [tlsca.go] and the properties of its handlers
    [TLSCAP.ReadCACertificate], [TLSCAP.CreateCertificate],
    [TLSCAP.ReadCertificate], [TLSCAP.RevokeCertificate] and
    [TLSCAA.RevokeCertificate].

    The handlers are written in a small state-and-panic monad.  The state
    holds the three things a handler can touch: the request structure its
    [req] pointer refers to, the authority its receiver refers to, and the
    sequence of calls made so far to the packages the file imports (the
    loggers, math/big, crypto/x509, protobuf, sha3, crypto/ecdsa and the
    authority's own certificate store).  The imported functions themselves
    are parameters of the development. *)

From Stdlib Require Import ZArith List Bool Lia.
From Stdlib.Strings Require Import String Ascii Byte.
Import ListNotations.

Set Implicit Arguments.

(** ** Go values *)

(** [[]byte]. *)
Definition bytes := list byte.

(** A non-nil Go [error], identified by its message; a nil [error] is
    [None] of [option error]. *)
Record error : Type := errors_New { Error : string }.

(** The two run-time panics the handlers can raise. *)
Inductive panic : Type :=
| NilDereference        (* invalid memory address or nil pointer dereference *)
| InterfaceConversion.  (* interface conversion: the dynamic type is not the asserted one *)

(** The dynamic types [x509.ParsePKIXPublicKey] stores in its [interface{}]
    result. *)
Module elliptic.
Inductive Curve : Type := P224 | P256 | P384 | P521.
End elliptic.

Module ecdsa.
Record PublicKey : Type := { Curve : elliptic.Curve; X : Z; Y : Z }.
End ecdsa.

Module rsa.
Record PublicKey : Type := { N : Z; E : Z }.
End rsa.

Module dsa.
Record PublicKey : Type := { P : Z; Q : Z; G : Z; Y : Z }.
End dsa.

Inductive PKIXKey : Type :=
| KeyECDSA (k : ecdsa.PublicKey)
| KeyRSA (k : rsa.PublicKey)
| KeyDSA (k : dsa.PublicKey).

(** The type assertion of [pub] to a pointer to [ecdsa.PublicKey], on an
    [interface{}] value
    ([None] is the nil interface): the one-result form, which panics when the
    dynamic type differs. *)
Definition assert_ecdsa (pub : option PKIXKey) : ecdsa.PublicKey + panic :=
  match pub with
  | Some (KeyECDSA k) => inl k
  | _ => inr InterfaceConversion
  end.

(** [x509.KeyUsageKeyAgreement]: the fifth constant of the [KeyUsage] bit
    set, [1 << 4]. *)
Definition x509_KeyUsageKeyAgreement : Z := Z.shiftl 1 4.

(** ** The messages of package [pb]

    The generated package is not part of the file; the messages are given
    here with the fields the handlers use.  A field that holds a message is
    a pointer and may be nil. *)
Module pb.

  (** [CryptoType] is an int32 enumeration; any value can arrive on the
      wire. *)
Definition CryptoType := Z.
Definition CryptoType_ECDSA : CryptoType := 0%Z.
Definition CryptoType_RSA : CryptoType := 1%Z.
Definition CryptoType_DSA : CryptoType := 2%Z.

Inductive Empty : Type := mkEmpty.

Module Timestamp.
Record t : Type := { Seconds : Z; Nanos : Z }.
End Timestamp.

Module Identity.
Record t : Type := { Id : string }.
End Identity.

Module PublicKey.
Record t : Type := { Type_ : CryptoType; Key : bytes }.
End PublicKey.

Module Signature.
Record t : Type := { Type_ : CryptoType; R : bytes; S : bytes }.
End Signature.

Module Cert.
Record t : Type := { Cert : bytes }.
End Cert.

Module TLSCertCreateReq.
Record t : Type :=
      { Ts : option Timestamp.t;
        Id : option Identity.t;
        Pub : option PublicKey.t;
        Sig : option Signature.t }.

    (** The assignment [req.Sig = v]. *)
Definition set_Sig (req : t) (v : option Signature.t) : t :=
      {| Ts := Ts req; Id := Id req; Pub := Pub req; Sig := v |}.
End TLSCertCreateReq.

Module TLSCertCreateResp.
Record t : Type := { Cert : option Cert.t }.
End TLSCertCreateResp.

Module TLSCertReadReq.
Record t : Type := { Id : option Identity.t }.
End TLSCertReadReq.

Module TLSCertRevokeReq.
Record t : Type := { Cert : option Cert.t; Sig : option Signature.t }.
End TLSCertRevokeReq.

Module CAStatus.
Record t : Type := { Status : Z }.
End CAStatus.

End pb.

(** ** The imported packages *)

(** The functions of the Go libraries that [CreateCertificate] calls, each
    with the results the handler receives.

    - [big_UnmarshalText z text] is [z.UnmarshalText(text)]: the value the
      receiver holds afterwards and the error returned;
    - [x509_ParsePKIXPublicKey der] returns the key and the error;
    - [proto_Marshal req] returns the encoding and the error;
    - [sha3_384 data] is the SHA3-384 digest of [data];
    - [ecdsa_Verify pub hash r s] is the verdict of [ecdsa.Verify]. *)
Class Libraries : Type :=
  { big_UnmarshalText : Z -> bytes -> Z * option error;
    x509_ParsePKIXPublicKey : bytes -> option PKIXKey * option error;
    proto_Marshal : pb.TLSCertCreateReq.t -> bytes * option error;
    sha3_384 : bytes -> bytes;
    ecdsa_Verify : ecdsa.PublicKey -> bytes -> Z -> Z -> bool }.

(** The authority [CA] that [TLSCA] embeds, and the enrollment authority it
    refers to.  Both are declared elsewhere in the package: [CA] carries the
    raw root certificate and the certificate store; [createCertificate] and
    [readCertificate] are its methods and may update it. *)
Class Authority : Type :=
  { CA : Type;
    ECA : Type;
    raw : CA -> bytes;
    createCertificate :
      CA -> string -> ecdsa.PublicKey -> Z -> Z -> CA * (bytes * option error);
    readCertificate : CA -> string -> Z -> CA * (bytes * option error) }.

(** [hash.Hash] as returned by [sha3.New384]: the bytes written so far. *)
Module sha3.
Record state : Type := { absorbed : bytes }.
Definition New384 : state := {| absorbed := [] |}.
Definition Write (h : state) (p : bytes) : state :=
    {| absorbed := absorbed h ++ p |}.
Definition Sum `{Libraries} (h : state) (b : bytes) : bytes :=
    b ++ sha3_384 (absorbed h).
End sha3.

(** ** Calls observed *)

(** One constructor per call a handler makes into another package, with the
    arguments of the call. *)
Inductive Event : Type :=
| EvTrace (msg : string)
| EvError (e : error)
| EvUnmarshalText (text : bytes)
| EvParsePKIXPublicKey (der : bytes)
| EvNew384
| EvMarshal (req : pb.TLSCertCreateReq.t)
| EvHashWrite (p : bytes)
| EvHashSum
| EvVerify (pub : ecdsa.PublicKey) (hash : bytes) (r s : Z)
| EvCreateCertificate (id : string) (pub : ecdsa.PublicKey) (usage : Z) (seconds : Z)
| EvReadCertificate (id : string) (usage : Z).

Definition is_store_call (e : Event) : bool :=
  match e with
  | EvCreateCertificate _ _ _ _ | EvReadCertificate _ _ => true
  | _ => false
  end.

Definition is_hash_call (e : Event) : bool :=
  match e with
  | EvNew384 | EvMarshal _ | EvHashWrite _ | EvHashSum => true
  | _ => false
  end.

Definition is_verify_call (e : Event) : bool :=
  match e with
  | EvVerify _ _ _ _ => true
  | _ => false
  end.

(** ** The state and the monad *)

(** [TLSCA]: the embedded [*CA] and the [eca] field. *)
Record TLSCA `{Authority} : Type := { ca : CA; eca : ECA }.

Definition set_ca `{Authority} (t : TLSCA) (c : CA) : TLSCA :=
  {| ca := c; eca := eca t |}.

(** What a handler can read and write: the structure behind the [req]
    pointer of [CreateCertificate], the authority behind the receiver, and
    the calls made so far, oldest first. *)
Record World `{Authority} : Type :=
  { w_req : pb.TLSCertCreateReq.t;
    w_tlsca : TLSCA;
    w_log : list Event }.

Inductive outcome (A : Type) : Type :=
| Returns (a : A)
| Panics (p : panic).
Arguments Panics {A} p.

Definition M `{Authority} (A : Type) : Type := World -> World * outcome A.

Definition ret `{Authority} {A} (a : A) : M A := fun w => (w, Returns a).

Definition bind `{Authority} {A B} (m : M A) (k : A -> M B) : M B :=
  fun w =>
    match m w with
    | (w', Returns a) => k a w'
    | (w', Panics p) => (w', Panics p)
    end.

Declare Scope go_scope.
Delimit Scope go_scope with go.
Notation "x <- m ;; k" := (bind m (fun x => k))
  (at level 100, m at next level, right associativity) : go_scope.
Notation "m ;; k" := (bind m (fun _ => k))
  (at level 100, right associativity) : go_scope.
Open Scope go_scope.

Definition throw `{Authority} {A} (p : panic) : M A := fun w => (w, Panics p).

(** Record a call. *)
Definition emit `{Authority} (e : Event) : M unit :=
  fun w =>
    ({| w_req := w_req w; w_tlsca := w_tlsca w; w_log := w_log w ++ [e] |},
     Returns tt).

(** Read through the [req] pointer. *)
Definition load_req `{Authority} : M pb.TLSCertCreateReq.t :=
  fun w => (w, Returns (w_req w)).

(** Write through the [req] pointer. *)
Definition store_req `{Authority} (r : pb.TLSCertCreateReq.t) : M unit :=
  fun w =>
    ({| w_req := r; w_tlsca := w_tlsca w; w_log := w_log w |}, Returns tt).

Definition load_tlsca `{Authority} : M TLSCA :=
  fun w => (w, Returns (w_tlsca w)).

Definition store_tlsca `{Authority} (t : TLSCA) : M unit :=
  fun w =>
    ({| w_req := w_req w; w_tlsca := t; w_log := w_log w |}, Returns tt).

(** Selecting a field through a pointer: a nil pointer panics. *)
Definition deref `{Authority} {A} (p : option A) : M A :=
  match p with
  | Some a => ret a
  | None => throw NilDereference
  end.

(** The one-result type assertion, lifted. *)
Definition assert_ecdsa_M `{Authority} (pub : option PKIXKey) : M ecdsa.PublicKey :=
  match assert_ecdsa pub with
  | inl k => ret k
  | inr p => throw p
  end.

(** ** The handlers of tlsca.go *)

Section Calls.
Context `{Libraries} `{Authority}.

(** [Trace.Println] and [Error.Println] of the package's loggers. *)
Definition Trace_Println (msg : string) : M unit := emit (EvTrace msg).
Definition Error_Println (e : error) : M unit := emit (EvError e).

(** [big.NewInt(x)]. *)
Definition big_NewInt (x : Z) : Z := x.

(** [z.UnmarshalText(text)]: the receiver's new value and the error. *)
Definition UnmarshalText (z : Z) (text : bytes) : M (Z * option error) :=
  emit (EvUnmarshalText text) ;;
  ret (big_UnmarshalText z text).

(** [x509.ParsePKIXPublicKey(der)]. *)
Definition ParsePKIXPublicKey (der : bytes) : M (option PKIXKey * option error) :=
  emit (EvParsePKIXPublicKey der) ;;
  ret (x509_ParsePKIXPublicKey der).

(** [sha3.New384()], [hash.Write(p)] and [hash.Sum(b)]. *)
Definition New384 : M sha3.state :=
  emit EvNew384 ;;
  ret sha3.New384.

Definition hash_Write (h : sha3.state) (p : bytes) : M sha3.state :=
  emit (EvHashWrite p) ;;
  ret (sha3.Write h p).

Definition hash_Sum (h : sha3.state) (b : bytes) : M bytes :=
  emit EvHashSum ;;
  ret (sha3.Sum h b).

(** [proto.Marshal(req)], [req] being the structure behind the pointer at
    the time of the call. *)
Definition Marshal : M (bytes * option error) :=
  req <- load_req ;;
  emit (EvMarshal req) ;;
  ret (proto_Marshal req).

(** [ecdsa.Verify(pub, hash, r, s)]. *)
Definition Verify (pub : ecdsa.PublicKey) (hash : bytes) (r s : Z) : M bool :=
  emit (EvVerify pub hash r s) ;;
  ret (ecdsa_Verify pub hash r s).

(** [tlsca.createCertificate(id, pub, usage, timestamp)], the method of the
    embedded authority, which it may update. *)
Definition tlsca_createCertificate (id : string) (pub : ecdsa.PublicKey)
    (usage : Z) (timestamp : Z) : M (bytes * option error) :=
  emit (EvCreateCertificate id pub usage timestamp) ;;
  t <- load_tlsca ;;
  let res := createCertificate (ca t) id pub usage timestamp in
  store_tlsca (set_ca t (fst res)) ;;
  ret (snd res).

(** [tlsca.readCertificate(id, usage)]. *)
Definition tlsca_readCertificate (id : string) (usage : Z) : M (bytes * option error) :=
  emit (EvReadCertificate id usage) ;;
  t <- load_tlsca ;;
  let res := readCertificate (ca t) id usage in
  store_tlsca (set_ca t (fst res)) ;;
  ret (snd res).

End Calls.

(** The public interface.  A handler returns the pair of results of the Go
    method: the response pointer and the error, each possibly nil.  The
    [context.Context] argument is used by no handler and is left out.

    A type assertion or a field selection among the arguments of a call is
    evaluated, and panics, before the call is made; the operands are taken
    from left to right. *)
Module TLSCAP.
Section Methods.
Context `{Libraries} `{Authority}.

(** tlsca.go, lines 82-86. *)
Definition ReadCACertificate (in_ : option pb.Empty) : M (option pb.Cert.t * option error) :=
  Trace_Println "grpc TLSCAP:ReadCACertificate" ;;
  t <- load_tlsca ;;
  ret (Some {| pb.Cert.Cert := raw (ca t) |}, None).

(** tlsca.go, lines 90-124.  [req] is the pointer to [w_req]. *)
Definition CreateCertificate : M (option pb.TLSCertCreateResp.t * option error) :=
  Trace_Println "grpc TLSCAP:CreateCertificate" ;;
  (* id := req.Id.Id *)
  req <- load_req ;;
  i <- deref (pb.TLSCertCreateReq.Id req) ;;
  let id := pb.Identity.Id i in
  (* sig := req.Sig *)
  req <- load_req ;;
  let sig := pb.TLSCertCreateReq.Sig req in
  (* req.Sig = nil *)
  req <- load_req ;;
  store_req (pb.TLSCertCreateReq.set_Sig req None) ;;
  (* r, s := big.NewInt(0), big.NewInt(0) *)
  let r := big_NewInt 0 in
  let s := big_NewInt 0 in
  (* r.UnmarshalText(sig.R); s.UnmarshalText(sig.S): errors dropped *)
  sg <- deref sig ;;
  ru <- UnmarshalText r (pb.Signature.R sg) ;;
  let r := fst ru in
  sg <- deref sig ;;
  su <- UnmarshalText s (pb.Signature.S sg) ;;
  let s := fst su in
  (* raw := req.Pub.Key *)
  req <- load_req ;;
  pk <- deref (pb.TLSCertCreateReq.Pub req) ;;
  let raw := pb.PublicKey.Key pk in
  (* if req.Pub.Type != pb.CryptoType_ECDSA *)
  req <- load_req ;;
  pk <- deref (pb.TLSCertCreateReq.Pub req) ;;
  if negb (Z.eqb (pb.PublicKey.Type_ pk) pb.CryptoType_ECDSA) then
    ret (None, Some (errors_New "unsupported key type"))
  else
  (* pub, err := x509.ParsePKIXPublicKey(req.Pub.Key) *)
  req <- load_req ;;
  pk <- deref (pb.TLSCertCreateReq.Pub req) ;;
  parsed <- ParsePKIXPublicKey (pb.PublicKey.Key pk) ;;
  let pub := fst parsed in
  match snd parsed with
  | Some err => ret (None, Some err)
  | None =>
  (* hash := sha3.New384(); raw, _ = proto.Marshal(req); hash.Write(raw) *)
  hash <- New384 ;;
  marshalled <- Marshal ;;
  let raw := fst marshalled in
  hash <- hash_Write hash raw ;;
  (* if ecdsa.Verify(pub.( *ecdsa.PublicKey), hash.Sum(nil), r, s) == false *)
  k <- assert_ecdsa_M pub ;;
  digest <- hash_Sum hash [] ;;
  ok <- Verify k digest r s ;;
  if Bool.eqb ok false then
    ret (None, Some (errors_New "signature does not verify"))
  else
  (* raw, err = tlscap.tlsca.createCertificate(id, pub.( *ecdsa.PublicKey),
                  x509.KeyUsageKeyAgreement, req.Ts.Seconds) *)
  k <- assert_ecdsa_M pub ;;
  req <- load_req ;;
  ts <- deref (pb.TLSCertCreateReq.Ts req) ;;
  created <- tlsca_createCertificate id k x509_KeyUsageKeyAgreement
               (pb.Timestamp.Seconds ts) ;;
  let raw := fst created in
  match snd created with
  | Some err =>
      Error_Println err ;;
      ret (None, Some err)
  | None =>
      ret (Some {| pb.TLSCertCreateResp.Cert := Some {| pb.Cert.Cert := raw |} |},
           None)
  end
  end.

(** tlsca.go, lines 128-137. *)
Definition ReadCertificate (req : pb.TLSCertReadReq.t) : M (option pb.Cert.t * option error) :=
  Trace_Println "grpc TLSCAP:ReadCertificate" ;;
  i <- deref (pb.TLSCertReadReq.Id req) ;;
  read <- tlsca_readCertificate (pb.Identity.Id i) x509_KeyUsageKeyAgreement ;;
  let raw := fst read in
  match snd read with
  | Some err => ret (None, Some err)
  | None => ret (Some {| pb.Cert.Cert := raw |}, None)
  end.

(** tlsca.go, lines 141-145. *)
Definition RevokeCertificate (_ : option pb.TLSCertRevokeReq.t) : M (option pb.CAStatus.t * option error) :=
  Trace_Println "grpc TLSCAP:RevokeCertificate" ;;
  ret (None, Some (errors_New "not yet implemented")).

End Methods.
End TLSCAP.

(** The administrator interface. *)
Module TLSCAA.
Section Methods.
Context `{Libraries} `{Authority}.

(** tlsca.go, lines 149-153. *)
Definition RevokeCertificate (_ : option pb.TLSCertRevokeReq.t) : M (option pb.CAStatus.t * option error) :=
  Trace_Println "grpc TLSCAA:RevokeCertificate" ;;
  ret (None, Some (errors_New "not yet implemented")).

End Methods.
End TLSCAA.

(** ** Values the properties speak of *)

Section Expected.
Context `{Libraries}.

(** The structure [proto.Marshal] receives: the request with [Sig] nil. *)
Definition marshalled_request (req : pb.TLSCertCreateReq.t) : pb.TLSCertCreateReq.t :=
  {| pb.TLSCertCreateReq.Ts := pb.TLSCertCreateReq.Ts req;
     pb.TLSCertCreateReq.Id := pb.TLSCertCreateReq.Id req;
     pb.TLSCertCreateReq.Pub := pb.TLSCertCreateReq.Pub req;
     pb.TLSCertCreateReq.Sig := None |}.

(** The bytes written to the hash, and the digest passed to [ecdsa.Verify]. *)
Definition hashed_bytes (req : pb.TLSCertCreateReq.t) : bytes :=
  fst (proto_Marshal (marshalled_request req)).

Definition request_digest (req : pb.TLSCertCreateReq.t) : bytes :=
  sha3_384 (hashed_bytes req).

(** The values [r] and [s] hold after the two calls of [UnmarshalText]. *)
Definition parsed_r (sg : pb.Signature.t) : Z :=
  fst (big_UnmarshalText 0 (pb.Signature.R sg)).

Definition parsed_s (sg : pb.Signature.t) : Z :=
  fst (big_UnmarshalText 0 (pb.Signature.S sg)).

(** A component of the signature fails to parse when [UnmarshalText]
    returns an error for it. *)
Definition parse_fails (text : bytes) : Prop :=
  snd (big_UnmarshalText 0 text) <> None.

(** The calls [CreateCertificate] makes up to and including [ecdsa.Verify],
    on a request with identity, signature [sg] and key [pk] that decodes to
    the ECDSA key [k]. *)
Definition verification_calls (req : pb.TLSCertCreateReq.t)
    (sg : pb.Signature.t) (pk : pb.PublicKey.t) (k : ecdsa.PublicKey) : list Event :=
  [ EvTrace "grpc TLSCAP:CreateCertificate";
    EvUnmarshalText (pb.Signature.R sg);
    EvUnmarshalText (pb.Signature.S sg);
    EvParsePKIXPublicKey (pb.PublicKey.Key pk);
    EvNew384;
    EvMarshal (marshalled_request req);
    EvHashWrite (hashed_bytes req);
    EvHashSum;
    EvVerify k (request_digest req) (parsed_r sg) (parsed_s sg) ].

End Expected.

(** The three ways decoding or verification of a request fails: the key
    type is not ECDSA, the key bytes do not parse, or the parsed key rejects
    the signature. *)
Inductive rejected `{Libraries} (req : pb.TLSCertCreateReq.t) : Prop :=
| rejected_key_type pk :
    pb.TLSCertCreateReq.Pub req = Some pk ->
    pb.PublicKey.Type_ pk <> pb.CryptoType_ECDSA ->
    rejected req
| rejected_key_bytes pk err :
    pb.TLSCertCreateReq.Pub req = Some pk ->
    snd (x509_ParsePKIXPublicKey (pb.PublicKey.Key pk)) = Some err ->
    rejected req
| rejected_signature pk sg k :
    pb.TLSCertCreateReq.Pub req = Some pk ->
    pb.TLSCertCreateReq.Sig req = Some sg ->
    fst (x509_ParsePKIXPublicKey (pb.PublicKey.Key pk)) = Some (KeyECDSA k) ->
    ecdsa_Verify k (request_digest req) (parsed_r sg) (parsed_s sg) = false ->
    rejected req.

(** The error values of tlsca.go. *)
Definition err_unsupported_key_type : error := errors_New "unsupported key type".
Definition err_signature_does_not_verify : error := errors_New "signature does not verify".
Definition err_not_yet_implemented : error := errors_New "not yet implemented".

(** ** A concrete instance of the imported packages

    Small executable stand-ins on which the handlers can be run.  The text
    scanner follows math/big on decimal texts: it reads a sign and decimal
    digits into the receiver and only then looks for the end of the input,
    so a text with trailing bytes returns an error and leaves the digits
    read so far in the receiver.  The prefixes that math/big reads in base
    0 (a leading 0, 0x, 0o, 0b) are not read: the examples use texts
    without a leading zero.  The key format, the encoding, the digest and the acceptance
    rule are reduced to a few bytes each. *)
Module Example.

Definition byte_value (b : byte) : Z := Z.of_N (Byte.to_N b).

Definition byte_of_Z (z : Z) : byte :=
  match Byte.of_N (Z.to_N (z mod 256)) with
  | Some b => b
  | None => x00
  end.

Definition bytes_of_string (s : string) : bytes := list_byte_of_string s.

Definition digit (b : byte) : option Z :=
  let v := byte_value b in
  if ((48 <=? v) && (v <=? 57))%Z then Some (v - 48)%Z else None.

(** The digits at the head of [text]: their value from [acc], how many were
    read, and what follows them. *)
Fixpoint scan_digits (acc : Z) (count : nat) (text : bytes) : Z * nat * bytes :=
  match text with
  | [] => (acc, count, [])
  | b :: rest =>
      match digit b with
      | Some d => scan_digits (10 * acc + d)%Z (S count) rest
      | None => (acc, count, text)
      end
  end.

Definition scan_sign (text : bytes) : bool * bytes :=
  match text with
  | "+"%byte :: rest => (false, rest)
  | "-"%byte :: rest => (true, rest)
  | _ => (false, text)
  end.

Definition err_unmarshal : error :=
  errors_New "math/big: cannot unmarshal text into a *big.Int".

Definition UnmarshalText (z : Z) (text : bytes) : Z * option error :=
  let signed := scan_sign text in
  let scanned := scan_digits 0 0 (snd signed) in
  let value := fst (fst scanned) in
  let count := snd (fst scanned) in
  let value := if fst signed then (- value)%Z else value in
  match count, snd scanned with
  | O, _ => (0%Z, Some err_unmarshal)
  | _, [] => (value, None)
  | _, _ :: _ => (value, Some err_unmarshal)
  end.

(** Keys: a tag byte, ["E"] for ECDSA on P-384 and ["R"] for RSA, followed
    by two bytes for the two numbers of the key. *)
Definition ParsePKIXPublicKey (der : bytes) : option PKIXKey * option error :=
  match der with
  | ["E"%byte; x; y] =>
      (Some (KeyECDSA {| ecdsa.Curve := elliptic.P384;
                         ecdsa.X := byte_value x;
                         ecdsa.Y := byte_value y |}), None)
  | ["R"%byte; n; e] =>
      (Some (KeyRSA {| rsa.N := byte_value n; rsa.E := byte_value e |}), None)
  | _ => (None, Some (errors_New "asn1: structure error"))
  end.

(** The encoding: each field that is present, in field order, behind its
    field number. *)
Definition Marshal (req : pb.TLSCertCreateReq.t) : bytes * option error :=
  ((match pb.TLSCertCreateReq.Ts req with
    | Some ts => [x01; byte_of_Z (pb.Timestamp.Seconds ts)]
    | None => []
    end) ++
   (match pb.TLSCertCreateReq.Id req with
    | Some i => x02 :: bytes_of_string (pb.Identity.Id i)
    | None => []
    end) ++
   (match pb.TLSCertCreateReq.Pub req with
    | Some pk => x03 :: byte_of_Z (pb.PublicKey.Type_ pk) :: pb.PublicKey.Key pk
    | None => []
    end) ++
   (match pb.TLSCertCreateReq.Sig req with
    | Some sg => x04 :: pb.Signature.R sg ++ pb.Signature.S sg
    | None => []
    end),
   None).

(** The digest: one byte, the sum of the input. *)
Definition checksum (data : bytes) : Z :=
  fold_left (fun acc b => ((acc + byte_value b) mod 256)%Z) data 0%Z.

Definition Sum384 (data : bytes) : bytes := [byte_of_Z (checksum data)].

(** The acceptance rule: [r] is the digest shifted by [X], [s] is [Y]. *)
Definition Verify (pub : ecdsa.PublicKey) (hash : bytes) (r s : Z) : bool :=
  ((0 <? r) && (0 <? s) &&
   (r =? ecdsa.X pub + checksum hash) && (s =? ecdsa.Y pub))%Z.

#[export] Instance libraries : Libraries :=
  {| big_UnmarshalText := UnmarshalText;
     x509_ParsePKIXPublicKey := ParsePKIXPublicKey;
     proto_Marshal := Marshal;
     sha3_384 := Sum384;
     ecdsa_Verify := Verify |}.

(** The authority: its root certificate and the certificates issued so far,
    newest first. *)
Record Issued : Type :=
  { issued_id : string; issued_usage : Z; issued_cert : bytes }.

Record Store : Type := { root : bytes; issued : list Issued }.

Definition issue (st : Store) (id : string) (pub : ecdsa.PublicKey)
    (usage : Z) (seconds : Z) : Store * (bytes * option error) :=
  if String.eqb id "" then
    (st, ([], Some (errors_New "empty identity")))
  else
    let cert := bytes_of_string id ++
                [byte_of_Z (ecdsa.X pub); byte_of_Z (ecdsa.Y pub);
                 byte_of_Z usage; byte_of_Z seconds] in
    ({| root := root st;
        issued := {| issued_id := id; issued_usage := usage; issued_cert := cert |}
                    :: issued st |},
     (cert, None)).

Definition lookup (st : Store) (id : string) (usage : Z) : Store * (bytes * option error) :=
  match find (fun c => String.eqb (issued_id c) id && Z.eqb (issued_usage c) usage)
             (issued st) with
  | Some c => (st, (issued_cert c, None))
  | None => (st, ([], Some (errors_New "sql: no rows in result set")))
  end.

#[export] Instance authority : Authority :=
  {| CA := Store;
     ECA := unit;
     raw := root;
     createCertificate := issue;
     readCertificate := lookup |}.

(** A starting state around a request: an authority with root certificate
    ["root"] that has issued nothing, and no calls made. *)
Definition world (req : pb.TLSCertCreateReq.t) : World :=
  {| w_req := req;
     w_tlsca := {| ca := {| root := bytes_of_string "root"; issued := [] |};
                   eca := tt |};
     w_log := [] |}.

Definition identity (id : string) : pb.Identity.t := {| pb.Identity.Id := id |}.

Definition public_key (type : pb.CryptoType) (key : string) : pb.PublicKey.t :=
  {| pb.PublicKey.Type_ := type; pb.PublicKey.Key := bytes_of_string key |}.

Definition signature (type : pb.CryptoType) (r s : string) : pb.Signature.t :=
  {| pb.Signature.Type_ := type;
     pb.Signature.R := bytes_of_string r;
     pb.Signature.S := bytes_of_string s |}.

Definition hour : pb.Timestamp.t :=
  {| pb.Timestamp.Seconds := 3600; pb.Timestamp.Nanos := 0 |}.

(** A request valid for an hour, with every field present. *)
Definition request (id : string) (type : pb.CryptoType) (key r s : string)
    : pb.TLSCertCreateReq.t :=
  {| pb.TLSCertCreateReq.Ts := Some hour;
     pb.TLSCertCreateReq.Id := Some (identity id);
     pb.TLSCertCreateReq.Pub := Some (public_key type key);
     pb.TLSCertCreateReq.Sig := Some (signature type r s) |}.

(** The key that ["E57"] parses to; on the request of ["alice"] with this
    key the signature it accepts is [r = 250], [s = 55]. *)
Definition key_E57 : ecdsa.PublicKey :=
  {| ecdsa.Curve := elliptic.P384; ecdsa.X := 53; ecdsa.Y := 55 |}.

(** The certificate the store issues for that request. *)
Definition alice_certificate : bytes :=
  bytes_of_string "alice" ++ [byte_of_Z 53; byte_of_Z 55; byte_of_Z 16; byte_of_Z 3600].

End Example.


(** ** Running the handlers *)

(** The state after the calls [calls], nothing else changed. *)
Definition logged `{Authority} (w : World) (calls : list Event) : World :=
  {| w_req := w_req w; w_tlsca := w_tlsca w; w_log := w_log w ++ calls |}.

(** The state [CreateCertificate] leaves when it stops before the store:
    [Sig] is nil in the request and [calls] were made. *)
Definition verified `{Authority} (w : World) (calls : list Event) : World :=
  {| w_req := marshalled_request (w_req w);
     w_tlsca := w_tlsca w;
     w_log := w_log w ++ calls |}.

(** The result of a handler that wraps what the store returned. *)
Definition store_result {A} (wrap : bytes -> A) (res : bytes * option error)
    : option A * option error :=
  match snd res with
  | Some err => (None, Some err)
  | None => (Some (wrap (fst res)), None)
  end.

Definition wrap_Cert (raw : bytes) : pb.Cert.t := {| pb.Cert.Cert := raw |}.

Definition wrap_TLSCertCreateResp (raw : bytes) : pb.TLSCertCreateResp.t :=
  {| pb.TLSCertCreateResp.Cert := Some (wrap_Cert raw) |}.

Definition no_call (p : Event -> bool) (calls : list Event) : Prop :=
  forallb (fun e => negb (p e)) calls = true.

Section Conditions.
Context `{Libraries} `{Authority}.

(** The hypotheses shared by the runs that reach the key-type check: the
    request carries identity [i], signature [sg] and key [pk]. *)
Definition carries (w : World) (i : pb.Identity.t) (sg : pb.Signature.t)
    (pk : pb.PublicKey.t) : Prop :=
  pb.TLSCertCreateReq.Id (w_req w) = Some i /\
  pb.TLSCertCreateReq.Sig (w_req w) = Some sg /\
  pb.TLSCertCreateReq.Pub (w_req w) = Some pk.

(** The hypotheses of the runs that reach [ecdsa.Verify]: ECDSA key type
    and key bytes that parse to the ECDSA key [k]. *)
Definition decodes (pk : pb.PublicKey.t) (k : ecdsa.PublicKey) : Prop :=
  pb.PublicKey.Type_ pk = pb.CryptoType_ECDSA /\
  x509_ParsePKIXPublicKey (pb.PublicKey.Key pk) = (Some (KeyECDSA k), None).

(** The state after the store call of a verified request. *)
Definition issued_world (w : World) (calls : list Event) (c : CA) : World :=
  {| w_req := marshalled_request (w_req w);
     w_tlsca := set_ca (w_tlsca w) c;
     w_log := w_log w ++ calls |}.

Definition error_logged (res : bytes * option error) : list Event :=
  match snd res with
  | Some err => [EvError err]
  | None => []
  end.

End Conditions.

(** Requests that lack one field each, cut from a request that verifies. *)
Module Cases.

Definition valid : pb.TLSCertCreateReq.t :=
  Example.request "alice" pb.CryptoType_ECDSA "E57" "250" "55".

Definition without_identity : pb.TLSCertCreateReq.t :=
  {| pb.TLSCertCreateReq.Ts := pb.TLSCertCreateReq.Ts valid;
     pb.TLSCertCreateReq.Id := None;
     pb.TLSCertCreateReq.Pub := pb.TLSCertCreateReq.Pub valid;
     pb.TLSCertCreateReq.Sig := pb.TLSCertCreateReq.Sig valid |}.

Definition without_key : pb.TLSCertCreateReq.t :=
  {| pb.TLSCertCreateReq.Ts := pb.TLSCertCreateReq.Ts valid;
     pb.TLSCertCreateReq.Id := pb.TLSCertCreateReq.Id valid;
     pb.TLSCertCreateReq.Pub := None;
     pb.TLSCertCreateReq.Sig := pb.TLSCertCreateReq.Sig valid |}.

(** Without the timestamp the encoding changes; the signature the key
    accepts is then [r = 233], [s = 55]. *)
Definition without_timestamp : pb.TLSCertCreateReq.t :=
  {| pb.TLSCertCreateReq.Ts := None;
     pb.TLSCertCreateReq.Id := pb.TLSCertCreateReq.Id valid;
     pb.TLSCertCreateReq.Pub := pb.TLSCertCreateReq.Pub valid;
     pb.TLSCertCreateReq.Sig :=
       Some (Example.signature pb.CryptoType_ECDSA "233" "55") |}.

End Cases.

(** The calls made before the key-type check: the trace line and the two
    calls of [UnmarshalText]. *)
Definition is_early_call (e : Event) : bool :=
  match e with
  | EvTrace _ | EvUnmarshalText _ => true
  | _ => false
  end.

Definition only_early_calls (calls : list Event) : Prop :=
  forallb is_early_call calls = true.

(** ** The paths of [CreateCertificate]

    One constructor per way a call can end, in the order of the source: the
    three nil dereferences before the key-type check, the two error returns
    of decoding, the failed type assertion, the failed verification, the nil
    timestamp in the arguments of the store call, and the store call. *)
Inductive create_run `{Libraries} `{Authority} (w : World)
    : World * outcome (option pb.TLSCertCreateResp.t * option error) -> Prop :=
| create_no_identity :
    pb.TLSCertCreateReq.Id (w_req w) = None ->
    create_run w
      (logged w [EvTrace "grpc TLSCAP:CreateCertificate"],
       Panics NilDereference)
| create_no_signature i :
    pb.TLSCertCreateReq.Id (w_req w) = Some i ->
    pb.TLSCertCreateReq.Sig (w_req w) = None ->
    create_run w
      (verified w [EvTrace "grpc TLSCAP:CreateCertificate"],
       Panics NilDereference)
| create_no_key i sg :
    pb.TLSCertCreateReq.Id (w_req w) = Some i ->
    pb.TLSCertCreateReq.Sig (w_req w) = Some sg ->
    pb.TLSCertCreateReq.Pub (w_req w) = None ->
    create_run w
      (verified w [EvTrace "grpc TLSCAP:CreateCertificate";
                   EvUnmarshalText (pb.Signature.R sg);
                   EvUnmarshalText (pb.Signature.S sg)],
       Panics NilDereference)
| create_key_type i sg pk :
    carries w i sg pk ->
    pb.PublicKey.Type_ pk <> pb.CryptoType_ECDSA ->
    create_run w
      (verified w [EvTrace "grpc TLSCAP:CreateCertificate";
                   EvUnmarshalText (pb.Signature.R sg);
                   EvUnmarshalText (pb.Signature.S sg)],
       Returns (None, Some err_unsupported_key_type))
| create_key_bytes i sg pk err :
    carries w i sg pk ->
    pb.PublicKey.Type_ pk = pb.CryptoType_ECDSA ->
    snd (x509_ParsePKIXPublicKey (pb.PublicKey.Key pk)) = Some err ->
    create_run w
      (verified w [EvTrace "grpc TLSCAP:CreateCertificate";
                   EvUnmarshalText (pb.Signature.R sg);
                   EvUnmarshalText (pb.Signature.S sg);
                   EvParsePKIXPublicKey (pb.PublicKey.Key pk)],
       Returns (None, Some err))
| create_other_key i sg pk pub :
    carries w i sg pk ->
    pb.PublicKey.Type_ pk = pb.CryptoType_ECDSA ->
    x509_ParsePKIXPublicKey (pb.PublicKey.Key pk) = (pub, None) ->
    (forall k, pub <> Some (KeyECDSA k)) ->
    create_run w
      (verified w [EvTrace "grpc TLSCAP:CreateCertificate";
                   EvUnmarshalText (pb.Signature.R sg);
                   EvUnmarshalText (pb.Signature.S sg);
                   EvParsePKIXPublicKey (pb.PublicKey.Key pk);
                   EvNew384;
                   EvMarshal (marshalled_request (w_req w));
                   EvHashWrite (hashed_bytes (w_req w))],
       Panics InterfaceConversion)
| create_signature i sg pk k :
    carries w i sg pk ->
    decodes pk k ->
    ecdsa_Verify k (request_digest (w_req w)) (parsed_r sg) (parsed_s sg) = false ->
    create_run w
      (verified w (verification_calls (w_req w) sg pk k),
       Returns (None, Some err_signature_does_not_verify))
| create_no_timestamp i sg pk k :
    carries w i sg pk ->
    decodes pk k ->
    ecdsa_Verify k (request_digest (w_req w)) (parsed_r sg) (parsed_s sg) = true ->
    pb.TLSCertCreateReq.Ts (w_req w) = None ->
    create_run w
      (verified w (verification_calls (w_req w) sg pk k),
       Panics NilDereference)
| create_issue i sg pk k ts :
    carries w i sg pk ->
    decodes pk k ->
    ecdsa_Verify k (request_digest (w_req w)) (parsed_r sg) (parsed_s sg) = true ->
    pb.TLSCertCreateReq.Ts (w_req w) = Some ts ->
    create_run w
      (issued_world w
         (verification_calls (w_req w) sg pk k ++
          [EvCreateCertificate (pb.Identity.Id i) k x509_KeyUsageKeyAgreement
             (pb.Timestamp.Seconds ts)] ++
          error_logged
            (snd (createCertificate (ca (w_tlsca w)) (pb.Identity.Id i) k
                    x509_KeyUsageKeyAgreement (pb.Timestamp.Seconds ts))))
         (fst (createCertificate (ca (w_tlsca w)) (pb.Identity.Id i) k
                 x509_KeyUsageKeyAgreement (pb.Timestamp.Seconds ts))),
       Returns (store_result wrap_TLSCertCreateResp
                  (snd (createCertificate (ca (w_tlsca w)) (pb.Identity.Id i) k
                          x509_KeyUsageKeyAgreement (pb.Timestamp.Seconds ts))))).

(** The state in which the request structure holds another signature. *)
Definition with_signature `{Authority} (w : World) (sg : pb.Signature.t) : World :=
  {| w_req := pb.TLSCertCreateReq.set_Sig (w_req w) (Some sg);
     w_tlsca := w_tlsca w;
     w_log := w_log w |}.

(** The calls to the store among [calls]. *)
Definition store_calls (calls : list Event) : list Event :=
  filter is_store_call calls.

(** Unfold the monad and the calls, then compute. *)
Ltac run :=
  unfold TLSCAP.CreateCertificate, TLSCAP.ReadCertificate,
    TLSCAP.ReadCACertificate, TLSCAP.RevokeCertificate,
    TLSCAA.RevokeCertificate,
    tlsca_createCertificate, tlsca_readCertificate, Verify, Marshal,
    hash_Sum, hash_Write, New384, ParsePKIXPublicKey, UnmarshalText,
    Trace_Println, Error_Println, assert_ecdsa_M, assert_ecdsa, deref,
    bind, ret, throw, emit, load_req, store_req, load_tlsca, store_tlsca,
    big_NewInt, sha3.Sum, sha3.Write, sha3.New384,
    pb.TLSCertCreateReq.set_Sig;
  cbn.

(** Open the state and the request, and name what the hypotheses say. *)
Ltac open_world w :=
  destruct w as [[ts0 id0 pub0 sig0] t0 l0];
  unfold carries, decodes, verified, issued_world, logged, verification_calls,
    parsed_r, parsed_s, request_digest, hashed_bytes, marshalled_request;
  cbn; intros;
  repeat match goal with C : _ /\ _ |- _ => destruct C end;
  repeat match goal with N : _ <> _ |- _ => apply Z.eqb_neq in N end;
  subst.

(** Run a handler along the path the equations of the context select. *)
Ltac exec :=
  run;
  repeat (match goal with E : _ = _ |- _ => rewrite E end; cbn).

(** Bring a log to the form [l ++ [e1; ...; en]]. *)
Ltac flatten_log := repeat (rewrite <- app_assoc; cbn [app]).

Section Runs.
Context `{Libraries} `{Authority}.

Lemma digest_of_hash (req : pb.TLSCertCreateReq.t) :
  sha3.Sum (sha3.Write sha3.New384 (hashed_bytes req)) [] = request_digest req.
Proof. reflexivity. Qed.

(** A request without identity panics on the first line, untouched. *)
Lemma run_no_identity (w : World) :
  pb.TLSCertCreateReq.Id (w_req w) = None ->
  TLSCAP.CreateCertificate w =
    (logged w [EvTrace "grpc TLSCAP:CreateCertificate"], Panics NilDereference).
Proof.
  open_world w.
  exec. reflexivity.
Qed.

(** A request with identity but without signature panics at [sig.R], after
    [req.Sig = nil]. *)
Lemma run_no_signature (w : World) i :
  pb.TLSCertCreateReq.Id (w_req w) = Some i ->
  pb.TLSCertCreateReq.Sig (w_req w) = None ->
  TLSCAP.CreateCertificate w =
    (verified w [EvTrace "grpc TLSCAP:CreateCertificate"], Panics NilDereference).
Proof.
  open_world w.
  exec. reflexivity.
Qed.

(** Without a key the handler panics at [req.Pub.Key], after both texts
    were unmarshalled. *)
Lemma run_no_key (w : World) i sg :
  pb.TLSCertCreateReq.Id (w_req w) = Some i ->
  pb.TLSCertCreateReq.Sig (w_req w) = Some sg ->
  pb.TLSCertCreateReq.Pub (w_req w) = None ->
  TLSCAP.CreateCertificate w =
    (verified w [EvTrace "grpc TLSCAP:CreateCertificate";
                 EvUnmarshalText (pb.Signature.R sg);
                 EvUnmarshalText (pb.Signature.S sg)],
     Panics NilDereference).
Proof.
  open_world w.
  exec.
  flatten_log. reflexivity.
Qed.

Lemma run_key_type (w : World) i sg pk :
  carries w i sg pk ->
  pb.PublicKey.Type_ pk <> pb.CryptoType_ECDSA ->
  TLSCAP.CreateCertificate w =
    (verified w [EvTrace "grpc TLSCAP:CreateCertificate";
                 EvUnmarshalText (pb.Signature.R sg);
                 EvUnmarshalText (pb.Signature.S sg)],
     Returns (None, Some err_unsupported_key_type)).
Proof.
  open_world w.
  exec.
  flatten_log. reflexivity.
Qed.

Lemma run_key_bytes (w : World) i sg pk err :
  carries w i sg pk ->
  pb.PublicKey.Type_ pk = pb.CryptoType_ECDSA ->
  snd (x509_ParsePKIXPublicKey (pb.PublicKey.Key pk)) = Some err ->
  TLSCAP.CreateCertificate w =
    (verified w [EvTrace "grpc TLSCAP:CreateCertificate";
                 EvUnmarshalText (pb.Signature.R sg);
                 EvUnmarshalText (pb.Signature.S sg);
                 EvParsePKIXPublicKey (pb.PublicKey.Key pk)],
     Returns (None, Some err)).
Proof.
  open_world w.
  exec.
  flatten_log. reflexivity.
Qed.

(** The key parsed without error, but not to an ECDSA key: the type
    assertion in the arguments of [ecdsa.Verify] panics, after the request
    was written to the hash. *)
Lemma run_other_key (w : World) i sg pk pub :
  carries w i sg pk ->
  pb.PublicKey.Type_ pk = pb.CryptoType_ECDSA ->
  x509_ParsePKIXPublicKey (pb.PublicKey.Key pk) = (pub, None) ->
  (forall k, pub <> Some (KeyECDSA k)) ->
  TLSCAP.CreateCertificate w =
    (verified w [EvTrace "grpc TLSCAP:CreateCertificate";
                 EvUnmarshalText (pb.Signature.R sg);
                 EvUnmarshalText (pb.Signature.S sg);
                 EvParsePKIXPublicKey (pb.PublicKey.Key pk);
                 EvNew384;
                 EvMarshal (marshalled_request (w_req w));
                 EvHashWrite (hashed_bytes (w_req w))],
     Panics InterfaceConversion).
Proof.
  open_world w.
  exec.
  flatten_log.
  destruct pub as [[k | k | k] | ]; try reflexivity.
  exfalso.
  match goal with Hother : forall k, _ <> _ |- _ => apply (Hother k) end.
  reflexivity.
Qed.

Lemma run_signature (w : World) i sg pk k :
  carries w i sg pk ->
  decodes pk k ->
  ecdsa_Verify k (request_digest (w_req w)) (parsed_r sg) (parsed_s sg) = false ->
  TLSCAP.CreateCertificate w =
    (verified w (verification_calls (w_req w) sg pk k),
     Returns (None, Some err_signature_does_not_verify)).
Proof.
  open_world w.
  exec.
  flatten_log. reflexivity.
Qed.

(** The signature verifies but the request has no timestamp: the handler
    panics at [req.Ts.Seconds], in the arguments of the store call. *)
Lemma run_no_timestamp (w : World) i sg pk k :
  carries w i sg pk ->
  decodes pk k ->
  ecdsa_Verify k (request_digest (w_req w)) (parsed_r sg) (parsed_s sg) = true ->
  pb.TLSCertCreateReq.Ts (w_req w) = None ->
  TLSCAP.CreateCertificate w =
    (verified w (verification_calls (w_req w) sg pk k), Panics NilDereference).
Proof.
  open_world w.
  exec.
  flatten_log. reflexivity.
Qed.

Lemma run_issue (w : World) i sg pk k ts :
  carries w i sg pk ->
  decodes pk k ->
  ecdsa_Verify k (request_digest (w_req w)) (parsed_r sg) (parsed_s sg) = true ->
  pb.TLSCertCreateReq.Ts (w_req w) = Some ts ->
  let res := createCertificate (ca (w_tlsca w)) (pb.Identity.Id i) k
               x509_KeyUsageKeyAgreement (pb.Timestamp.Seconds ts) in
  TLSCAP.CreateCertificate w =
    (issued_world w
       (verification_calls (w_req w) sg pk k ++
        [EvCreateCertificate (pb.Identity.Id i) k x509_KeyUsageKeyAgreement
           (pb.Timestamp.Seconds ts)] ++
        error_logged (snd res))
       (fst res),
     Returns (store_result wrap_TLSCertCreateResp (snd res))).
Proof.
  open_world w.
  exec.
  unfold store_result, error_logged; cbn.
  destruct (createCertificate _ _ _ _ _) as [c [certificate [err | ]]];
    cbn; flatten_log; reflexivity.
Qed.

End Runs.

(** ** Properties of the handlers *)

(** Case analysis on whatever the run still branches on. *)
Ltac branch :=
  repeat (cbn;
          match goal with
          | |- context [match ?x with _ => _ end] =>
              lazymatch x with
              | context [match _ with _ => _ end] => fail
              | _ => destruct x eqn:?
              end
          end).

Section Properties.
Context `{Libraries} `{Authority}.

(** C10.  [ReadCACertificate] returns, on every call, the raw root
    certificate of the authority and a nil error.  Whatever its argument and
    the state, it returns (it has no failure path), the result does not
    depend on the argument, and the request structure and the authority
    are left as they were: the only call made is the trace line. *)
Theorem ReadCACertificate_returns_root (in_ : option pb.Empty) (w : World) :
  TLSCAP.ReadCACertificate in_ w =
    (logged w [EvTrace "grpc TLSCAP:ReadCACertificate"],
     Returns (Some {| pb.Cert.Cert := raw (ca (w_tlsca w)) |}, None)).
Proof.
  destruct w as [req t l]. reflexivity.
Qed.

(** C8.  [RevokeCertificate], on the public and on the administrator
    interface and for any request, returns a nil result with the error
    "not yet implemented"; the authority and its store are left as they
    were and the only call made is the trace line. *)
Theorem RevokeCertificate_not_yet_implemented
    (req : option pb.TLSCertRevokeReq.t) (w : World) :
  TLSCAP.RevokeCertificate req w =
    (logged w [EvTrace "grpc TLSCAP:RevokeCertificate"],
     Returns (None, Some err_not_yet_implemented))
  /\
  TLSCAA.RevokeCertificate req w =
    (logged w [EvTrace "grpc TLSCAA:RevokeCertificate"],
     Returns (None, Some err_not_yet_implemented)).
Proof.
  destruct w as [r t l]. split; reflexivity.
Qed.

(** C7, as the code has it.  [ReadCertificate], on a request that carries
    an identity (without one it panics before the store), makes
    two calls, the trace line and the store's [readCertificate] with the
    identity of the request and the key-agreement usage: no signature is
    verified.  When the store returns no error its bytes are returned in a
    [Cert]; when it returns an error, that error is returned with a nil
    result. *)
Theorem ReadCertificate_delegates (req : pb.TLSCertReadReq.t) (w : World) i :
  pb.TLSCertReadReq.Id req = Some i ->
  let calls := [EvTrace "grpc TLSCAP:ReadCertificate";
                EvReadCertificate (pb.Identity.Id i) x509_KeyUsageKeyAgreement] in
  let res := readCertificate (ca (w_tlsca w)) (pb.Identity.Id i)
               x509_KeyUsageKeyAgreement in
  let run := TLSCAP.ReadCertificate req w in
  w_log (fst run) = w_log w ++ calls
  /\ no_call is_verify_call calls
  /\ ca (w_tlsca (fst run)) = fst res
  /\ (forall raw, snd res = (raw, None) ->
        snd run = Returns (Some {| pb.Cert.Cert := raw |}, None))
  /\ (forall raw err, snd res = (raw, Some err) ->
        snd run = Returns (None, Some err)).
Proof.
  intros Hid calls res run.
  subst calls res run. destruct w as [r t l]. run. rewrite Hid. cbn.
  destruct (readCertificate _ _ _) as [c [raw0 [err0 | ]]]; cbn;
    flatten_log; repeat split;
    try (intros raw1 E; inversion E; subst; reflexivity);
    try (intros raw1 err1 E; inversion E; subst; reflexivity).
Qed.

(** C3, as the code has it.  On a request that carries identity, signature
    and key (the three are dereferenced before the check), and whose key
    type is not ECDSA, [CreateCertificate] returns a nil response and
    the error "unsupported key type".  The calls made up to then are the
    trace line and the two [UnmarshalText] calls: nothing was marshalled or
    hashed and [ecdsa.Verify] was not called.  The error differs from
    "signature does not verify". *)
Theorem CreateCertificate_unsupported_key_type (w : World) i sg pk :
  carries w i sg pk ->
  pb.PublicKey.Type_ pk <> pb.CryptoType_ECDSA ->
  let calls := [EvTrace "grpc TLSCAP:CreateCertificate";
                EvUnmarshalText (pb.Signature.R sg);
                EvUnmarshalText (pb.Signature.S sg)] in
  TLSCAP.CreateCertificate w =
    (verified w calls, Returns (None, Some err_unsupported_key_type))
  /\ no_call is_hash_call calls
  /\ no_call is_verify_call calls
  /\ err_unsupported_key_type <> err_signature_does_not_verify.
Proof.
  intros Hreq Hty calls. subst calls.
  split; [ | repeat split; discriminate ].
  exact (run_key_type Hreq Hty).
Qed.

(** C6, as the code has it.  On a request that carries identity,
    signature, key and timestamp (the timestamp is dereferenced in the
    arguments of the store call), whose key decodes to the ECDSA key [k] and whose signature verifies,
    [CreateCertificate] calls the store's [createCertificate] after the
    verification, with the identity of the request, [k], the key-agreement
    usage and the seconds of the timestamp.  When the store returns no
    error, its bytes are returned, unchanged, in the [Cert] of the
    response; when it returns an error, the error is logged and
    returned. *)
Theorem CreateCertificate_delegates_to_store (w : World) i sg pk k ts :
  carries w i sg pk ->
  decodes pk k ->
  ecdsa_Verify k (request_digest (w_req w)) (parsed_r sg) (parsed_s sg) = true ->
  pb.TLSCertCreateReq.Ts (w_req w) = Some ts ->
  let call := EvCreateCertificate (pb.Identity.Id i) k
                x509_KeyUsageKeyAgreement (pb.Timestamp.Seconds ts) in
  let res := createCertificate (ca (w_tlsca w)) (pb.Identity.Id i) k
               x509_KeyUsageKeyAgreement (pb.Timestamp.Seconds ts) in
  let run := TLSCAP.CreateCertificate w in
  w_log (fst run) =
    w_log w ++ verification_calls (w_req w) sg pk k ++ [call] ++
    error_logged (snd res)
  /\ ca (w_tlsca (fst run)) = fst res
  /\ (forall raw, snd res = (raw, None) ->
        snd run =
          Returns (Some {| pb.TLSCertCreateResp.Cert :=
                             Some {| pb.Cert.Cert := raw |} |}, None))
  /\ (forall raw err, snd res = (raw, Some err) ->
        snd run = Returns (None, Some err)).
Proof.
  intros Hreq Hdec Hver Hts call res run.
  subst run. rewrite (run_issue Hreq Hdec Hver Hts). fold res. subst call.
  cbn. unfold store_result.
  repeat split.
  - intros raw1 E. rewrite E. reflexivity.
  - intros raw1 err1 E. rewrite E. reflexivity.
Qed.

(** What a run does after [ecdsa.Verify], on a request that reaches it. *)
Lemma run_from_verify (w : World) i sg pk k :
  carries w i sg pk ->
  decodes pk k ->
  let req := w_req w in
  let accepted :=
    ecdsa_Verify k (request_digest req) (parsed_r sg) (parsed_s sg) in
  let run := TLSCAP.CreateCertificate w in
  exists rest,
    w_log (fst run) = w_log w ++ verification_calls req sg pk k ++ rest
    /\ (accepted = false ->
        rest = [] /\
        run = (verified w (verification_calls req sg pk k),
               Returns (None, Some err_signature_does_not_verify)))
    /\ (accepted = true -> forall ts,
        pb.TLSCertCreateReq.Ts req = Some ts ->
        exists rest',
          rest = EvCreateCertificate (pb.Identity.Id i) k
                   x509_KeyUsageKeyAgreement (pb.Timestamp.Seconds ts) :: rest')
    /\ (forall resp, snd run = Returns (Some resp, None) -> accepted = true)
    /\ w_req (fst run) = marshalled_request req.
Proof.
  intros Hreq Hdec req accepted run.
  destruct accepted eqn:Hver; subst accepted.
  - destruct (pb.TLSCertCreateReq.Ts req) as [ts | ] eqn:Hts; subst req.
    + exists ([EvCreateCertificate (pb.Identity.Id i) k
                x509_KeyUsageKeyAgreement (pb.Timestamp.Seconds ts)] ++
             error_logged
               (snd (createCertificate (ca (w_tlsca w)) (pb.Identity.Id i) k
                       x509_KeyUsageKeyAgreement (pb.Timestamp.Seconds ts)))).
      subst run. rewrite (run_issue Hreq Hdec Hver Hts). cbn.
      repeat split; try discriminate.
      intros _ ts' E. inversion E; subst.
      eexists; reflexivity.
    + exists []. subst run. rewrite (run_no_timestamp Hreq Hdec Hver Hts). cbn.
      rewrite ?app_nil_r.
      repeat split; try discriminate.
  - exists []. subst run req. rewrite (run_signature Hreq Hdec Hver). cbn.
    rewrite ?app_nil_r.
    repeat split; try discriminate.
Qed.

(** C1.  On a request that carries identity, signature [sg] and key [pk],
    whose key type is ECDSA and whose key bytes parse to the ECDSA key [k],
    [CreateCertificate] sets [Sig] to nil in the request and makes, before
    anything else, the calls of [verification_calls]: both
    signature texts are unmarshalled, the key is parsed, the request with
    [Sig] nil is marshalled, the encoding is written to a SHA3-384 hash, and
    [ecdsa.Verify] is called with [k], the digest of that encoding and the
    unmarshalled [r] and [s].  When [ecdsa.Verify] returns false nothing
    follows and the call returns "signature does not verify"; a response
    with nil error is returned only when it returned true.  The marshalled
    structure has no signature, and the bytes hashed are the same whatever
    the signature field of the request holds. *)
Theorem CreateCertificate_verification (w : World) i sg pk k :
  carries w i sg pk ->
  decodes pk k ->
  let req := w_req w in
  let accepted :=
    ecdsa_Verify k (request_digest req) (parsed_r sg) (parsed_s sg) in
  let run := TLSCAP.CreateCertificate w in
  w_req (fst run) = marshalled_request req
  /\ (exists rest,
     w_log (fst run) = w_log w ++ verification_calls req sg pk k ++ rest
     /\ (accepted = false -> rest = []))
  /\ (accepted = false ->
      snd run = Returns (None, Some err_signature_does_not_verify))
  /\ (forall resp, snd run = Returns (Some resp, None) -> accepted = true)
  /\ pb.TLSCertCreateReq.Sig (marshalled_request req) = None
  /\ (forall sig',
        hashed_bytes (pb.TLSCertCreateReq.set_Sig req sig') = hashed_bytes req).
Proof.
  intros Hreq Hdec req accepted run.
  destruct (run_from_verify Hreq Hdec)
    as (rest & Hlog & Hfalse & _ & Htrue & Hafter).
  fold req accepted run in Hlog, Hfalse, Htrue, Hafter.
  repeat split.
  - exact Hafter.
  - exists rest. split; [exact Hlog | ]. intros E. apply Hfalse; exact E.
  - intros E. destruct (Hfalse E) as [_ Hrun]. rewrite Hrun. reflexivity.
  - exact Htrue.
Qed.

(** C4, as the code has it.  On a request that carries identity, signature
    and key, whose key decodes to the ECDSA key [k] and of whose signature
    texts at least one fails to parse, [CreateCertificate] drops the errors
    of [UnmarshalText] and goes on: the request with [Sig] nil is marshalled
    and hashed and [ecdsa.Verify] is called on the values the two calls left
    in [r] and [s].  When it returns false the call stops there with
    "signature does not verify"; when it returns true the request is taken
    as verified and, given a timestamp, the store is called. *)
Theorem CreateCertificate_unparsable_signature (w : World) i sg pk k :
  carries w i sg pk ->
  decodes pk k ->
  parse_fails (pb.Signature.R sg) \/ parse_fails (pb.Signature.S sg) ->
  let req := w_req w in
  let accepted :=
    ecdsa_Verify k (request_digest req) (parsed_r sg) (parsed_s sg) in
  let run := TLSCAP.CreateCertificate w in
  (exists rest,
     w_log (fst run) = w_log w ++ verification_calls req sg pk k ++ rest)
  /\ (accepted = false ->
      run = (verified w (verification_calls req sg pk k),
             Returns (None, Some err_signature_does_not_verify)))
  /\ (accepted = true -> forall ts,
      pb.TLSCertCreateReq.Ts req = Some ts ->
      exists rest',
        w_log (fst run) =
          w_log w ++ verification_calls req sg pk k ++
          EvCreateCertificate (pb.Identity.Id i) k x509_KeyUsageKeyAgreement
            (pb.Timestamp.Seconds ts) :: rest').
Proof.
  intros Hreq Hdec _ req accepted run.
  destruct (run_from_verify Hreq Hdec) as (rest & Hlog & Hfalse & Htrue & _ & _).
  fold req accepted run in Hlog, Hfalse, Htrue.
  repeat split.
  - exists rest. exact Hlog.
  - intros E. apply Hfalse; exact E.
  - intros E ts Hts. destruct (Htrue E ts Hts) as [rest' Hrest].
    exists rest'. rewrite Hlog, Hrest. reflexivity.
Qed.

(** A signature text without digits leaves zero in the receiver of a
    scanner such as that of math/big, and [ecdsa.Verify] accepts only
    positive [r] and [s]: under these two readings of the libraries a
    request one of whose texts left a value that is not positive is turned
    down with "signature does not verify". *)
Lemma unparsable_signature_rejected (w : World) i sg pk k :
  carries w i sg pk ->
  decodes pk k ->
  (forall pub hash r s, (r <= 0 \/ s <= 0)%Z -> ecdsa_Verify pub hash r s = false) ->
  (parsed_r sg <= 0 \/ parsed_s sg <= 0)%Z ->
  TLSCAP.CreateCertificate w =
    (verified w (verification_calls (w_req w) sg pk k),
     Returns (None, Some err_signature_does_not_verify)).
Proof.
  intros Hreq Hdec Hpositive Hleft.
  apply (run_signature Hreq Hdec).
  apply Hpositive. exact Hleft.
Qed.

(** C9, on the code.  On a request that carries identity, signature and
    key, whose key type is ECDSA and whose key bytes parse without error to
    a key that is not an ECDSA key, [CreateCertificate] panics at the
    type assertion in the arguments of [ecdsa.Verify]. *)
Theorem CreateCertificate_panics_on_other_key (w : World) i sg pk key :
  carries w i sg pk ->
  pb.PublicKey.Type_ pk = pb.CryptoType_ECDSA ->
  x509_ParsePKIXPublicKey (pb.PublicKey.Key pk) = (Some key, None) ->
  (forall k, key <> KeyECDSA k) ->
  snd (TLSCAP.CreateCertificate w) = Panics InterfaceConversion.
Proof.
  intros Hreq Hty Hparse Hother.
  rewrite (run_other_key Hreq Hty Hparse); [reflexivity | ].
  intros k E. inversion E. apply (Hother k). assumption.
Qed.

(** C5, as the code has it.  [CreateCertificate] sets [Sig] to nil in the
    request structure it was given, not in a copy: on a request that carries
    an identity, whatever path the call takes, the structure afterwards is
    the one received with [Sig] nil and the other fields as they were. *)
Theorem CreateCertificate_nulls_signature_in_place (w : World) i :
  pb.TLSCertCreateReq.Id (w_req w) = Some i ->
  w_req (fst (TLSCAP.CreateCertificate w)) = marshalled_request (w_req w).
Proof.
  open_world w. run. branch; reflexivity.
Qed.

(** A run that ends in [verified w calls] or [logged w calls] without a
    response, [calls] holding no store call, has not touched the store. *)
Lemma stopped_before_store (w w' : World) calls
    (out : outcome (option pb.TLSCertCreateResp.t * option error)) :
  w' = verified w calls \/ w' = logged w calls ->
  no_call is_store_call calls ->
  (forall resp, out <> Returns (Some resp, None)) ->
  (exists calls',
     w_log (fst (w', out)) = w_log w ++ calls' /\ no_call is_store_call calls')
  /\ w_tlsca (fst (w', out)) = w_tlsca w
  /\ (forall resp, snd (w', out) <> Returns (Some resp, None)).
Proof.
  intros [-> | ->] Hcalls Hout; cbn;
    (split; [exists calls; split; [reflexivity | exact Hcalls] | ]);
    (split; [reflexivity | exact Hout]).
Qed.

(** C2.  On a request that is rejected, be it for its key type, for key
    bytes that do not parse or for a signature that does not verify,
    [CreateCertificate] makes no call to the store, leaves the authority as
    it was and does not return a response. *)
Theorem CreateCertificate_rejected_no_store (w : World) :
  rejected (w_req w) ->
  let run := TLSCAP.CreateCertificate w in
  (exists calls,
     w_log (fst run) = w_log w ++ calls /\ no_call is_store_call calls)
  /\ w_tlsca (fst run) = w_tlsca w
  /\ (forall resp, snd run <> Returns (Some resp, None)).
Proof.
  intros Hrej run. subst run.
  destruct (pb.TLSCertCreateReq.Id (w_req w)) as [i | ] eqn:Hid;
    [ | rewrite (run_no_identity _ Hid);
        eapply stopped_before_store; [right; reflexivity | reflexivity | intros; discriminate] ].
  destruct (pb.TLSCertCreateReq.Sig (w_req w)) as [sg | ] eqn:Hsig;
    [ | rewrite (run_no_signature _ Hid Hsig);
        eapply stopped_before_store; [left; reflexivity | reflexivity | intros; discriminate] ].
  assert (Hother : forall pk,
             pb.TLSCertCreateReq.Pub (w_req w) = Some pk ->
             pb.PublicKey.Type_ pk <> pb.CryptoType_ECDSA ->
             (exists calls,
                w_log (fst (TLSCAP.CreateCertificate w)) = w_log w ++ calls
                /\ no_call is_store_call calls)
             /\ w_tlsca (fst (TLSCAP.CreateCertificate w)) = w_tlsca w
             /\ (forall resp,
                   snd (TLSCAP.CreateCertificate w) <> Returns (Some resp, None))).
  { intros pk Hpub Hty.
    rewrite (run_key_type (conj Hid (conj Hsig Hpub)) Hty).
    eapply stopped_before_store; [left; reflexivity | reflexivity | intros; discriminate]. }
  assert (Hbytes : forall pk err,
             pb.TLSCertCreateReq.Pub (w_req w) = Some pk ->
             pb.PublicKey.Type_ pk = pb.CryptoType_ECDSA ->
             snd (x509_ParsePKIXPublicKey (pb.PublicKey.Key pk)) = Some err ->
             (exists calls,
                w_log (fst (TLSCAP.CreateCertificate w)) = w_log w ++ calls
                /\ no_call is_store_call calls)
             /\ w_tlsca (fst (TLSCAP.CreateCertificate w)) = w_tlsca w
             /\ (forall resp,
                   snd (TLSCAP.CreateCertificate w) <> Returns (Some resp, None))).
  { intros pk err Hpub Hty Herr.
    rewrite (run_key_bytes (conj Hid (conj Hsig Hpub)) Hty Herr).
    eapply stopped_before_store; [left; reflexivity | reflexivity | intros; discriminate]. }
  destruct Hrej as [pk Hpub Hty | pk err Hpub Herr | pk sg' k Hpub Hsig' Hkey Hver].
  - exact (Hother pk Hpub Hty).
  - destruct (Z.eq_dec (pb.PublicKey.Type_ pk) pb.CryptoType_ECDSA) as [Hty | Hty].
    + exact (Hbytes pk err Hpub Hty Herr).
    + exact (Hother pk Hpub Hty).
  - rewrite Hsig in Hsig'. inversion Hsig'; subst sg'.
    destruct (Z.eq_dec (pb.PublicKey.Type_ pk) pb.CryptoType_ECDSA) as [Hty | Hty];
      [ | exact (Hother pk Hpub Hty) ].
    destruct (x509_ParsePKIXPublicKey (pb.PublicKey.Key pk)) as [pub perr] eqn:Hparse.
    cbn in Hkey. subst pub.
    destruct perr as [err | ].
    + apply (Hbytes pk err Hpub Hty). rewrite Hparse. reflexivity.
    + rewrite (run_signature (conj Hid (conj Hsig Hpub)) (conj Hty Hparse) Hver).
      eapply stopped_before_store; [left; reflexivity | reflexivity | intros; discriminate].
Qed.

End Properties.

(** ** The handlers on concrete requests *)

Section Examples.
Import Example.
Open Scope string_scope.

Lemma ReadCertificate_delegates_witness :
  snd (TLSCAP.ReadCertificate
         {| pb.TLSCertReadReq.Id := Some (identity "alice") |}
         (world (request "alice" pb.CryptoType_ECDSA "E57" "250" "55")))
  = Returns (None, Some (errors_New "sql: no rows in result set")).
Proof.
  pose proof (ReadCertificate_delegates
                {| pb.TLSCertReadReq.Id := Some (identity "alice") |}
                (world (request "alice" pb.CryptoType_ECDSA "E57" "250" "55"))
                (i := identity "alice") eq_refl) as W.
  cbv zeta in W. destruct W as (_ & _ & _ & _ & W).
  apply (W []). reflexivity.
Defined.

Lemma CreateCertificate_unsupported_key_type_witness :
  let w := world (request "alice" pb.CryptoType_RSA "R57" "250" "55") in
  TLSCAP.CreateCertificate w =
    (verified w [EvTrace "grpc TLSCAP:CreateCertificate";
                 EvUnmarshalText (bytes_of_string "250");
                 EvUnmarshalText (bytes_of_string "55")],
     Returns (None, Some err_unsupported_key_type)).
Proof.
  intros w.
  assert (Hreq : carries w (identity "alice")
                   (signature pb.CryptoType_RSA "250" "55")
                   (public_key pb.CryptoType_RSA "R57"))
    by (repeat split; reflexivity).
  assert (Hty : pb.PublicKey.Type_ (public_key pb.CryptoType_RSA "R57")
                <> pb.CryptoType_ECDSA)
    by discriminate.
  exact (proj1 (CreateCertificate_unsupported_key_type Hreq Hty)).
Defined.

Lemma CreateCertificate_delegates_to_store_witness :
  snd (TLSCAP.CreateCertificate
         (world (request "alice" pb.CryptoType_ECDSA "E57" "250" "55")))
  = Returns (Some {| pb.TLSCertCreateResp.Cert :=
                       Some {| pb.Cert.Cert := alice_certificate |} |}, None).
Proof.
  set (w := world (request "alice" pb.CryptoType_ECDSA "E57" "250" "55")).
  assert (Hreq : carries w (identity "alice")
                   (signature pb.CryptoType_ECDSA "250" "55")
                   (public_key pb.CryptoType_ECDSA "E57"))
    by (repeat split; reflexivity).
  assert (Hdec : decodes (public_key pb.CryptoType_ECDSA "E57") key_E57)
    by (split; reflexivity).
  assert (Hver : ecdsa_Verify key_E57 (request_digest (w_req w))
                   (parsed_r (signature pb.CryptoType_ECDSA "250" "55"))
                   (parsed_s (signature pb.CryptoType_ECDSA "250" "55")) = true)
    by reflexivity.
  assert (Hts : pb.TLSCertCreateReq.Ts (w_req w) = Some hour)
    by reflexivity.
  pose proof (CreateCertificate_delegates_to_store Hreq Hdec Hver Hts) as W.
  cbv zeta in W. destruct W as (_ & _ & W & _).
  apply W. reflexivity.
Defined.

Lemma CreateCertificate_verification_witness :
  snd (TLSCAP.CreateCertificate
         (world (request "alice" pb.CryptoType_ECDSA "E57" "1" "1")))
  = Returns (None, Some err_signature_does_not_verify).
Proof.
  set (w := world (request "alice" pb.CryptoType_ECDSA "E57" "1" "1")).
  assert (Hreq : carries w (identity "alice")
                   (signature pb.CryptoType_ECDSA "1" "1")
                   (public_key pb.CryptoType_ECDSA "E57"))
    by (repeat split; reflexivity).
  assert (Hdec : decodes (public_key pb.CryptoType_ECDSA "E57") key_E57)
    by (split; reflexivity).
  pose proof (CreateCertificate_verification Hreq Hdec) as W.
  cbv zeta in W. destruct W as (_ & _ & W & _).
  apply W. reflexivity.
Defined.

Lemma CreateCertificate_rejected_no_store_witness :
  let w := world (request "alice" pb.CryptoType_ECDSA "X" "250" "55") in
  w_tlsca (fst (TLSCAP.CreateCertificate w)) = w_tlsca w.
Proof.
  intros w.
  assert (Hrej : rejected (w_req w)).
  { apply (rejected_key_bytes _ (pk := public_key pb.CryptoType_ECDSA "X")
             (err := errors_New "asn1: structure error")); reflexivity. }
  pose proof (CreateCertificate_rejected_no_store w Hrej) as W.
  cbv zeta in W. destruct W as (_ & W & _).
  exact W.
Defined.

Lemma CreateCertificate_unparsable_signature_witness :
  let w := world (request "alice" pb.CryptoType_ECDSA "E57" "abc" "55") in
  TLSCAP.CreateCertificate w =
    (verified w (verification_calls (w_req w)
                   (signature pb.CryptoType_ECDSA "abc" "55")
                   (public_key pb.CryptoType_ECDSA "E57") key_E57),
     Returns (None, Some err_signature_does_not_verify)).
Proof.
  intros w.
  assert (Hreq : carries w (identity "alice")
                   (signature pb.CryptoType_ECDSA "abc" "55")
                   (public_key pb.CryptoType_ECDSA "E57"))
    by (repeat split; reflexivity).
  assert (Hdec : decodes (public_key pb.CryptoType_ECDSA "E57") key_E57)
    by (split; reflexivity).
  assert (Hfail : parse_fails (pb.Signature.R (signature pb.CryptoType_ECDSA "abc" "55"))
                  \/ parse_fails (pb.Signature.S (signature pb.CryptoType_ECDSA "abc" "55")))
    by (left; discriminate).
  pose proof (CreateCertificate_unparsable_signature Hreq Hdec Hfail) as W.
  cbv zeta in W. destruct W as (_ & W & _).
  apply W. reflexivity.
Defined.

Lemma CreateCertificate_panics_on_other_key_witness :
  snd (TLSCAP.CreateCertificate
         (world (request "alice" pb.CryptoType_ECDSA "R57" "250" "55")))
  = Panics InterfaceConversion.
Proof.
  set (w := world (request "alice" pb.CryptoType_ECDSA "R57" "250" "55")).
  assert (Hreq : carries w (identity "alice")
                   (signature pb.CryptoType_ECDSA "250" "55")
                   (public_key pb.CryptoType_ECDSA "R57"))
    by (repeat split; reflexivity).
  assert (Hother : forall k, KeyRSA {| rsa.N := 53; rsa.E := 55 |} <> KeyECDSA k)
    by discriminate.
  exact (CreateCertificate_panics_on_other_key
           (pk := public_key pb.CryptoType_ECDSA "R57") Hreq eq_refl eq_refl Hother).
Defined.

Lemma CreateCertificate_nulls_signature_in_place_witness :
  let w := world (request "alice" pb.CryptoType_ECDSA "E57" "250" "55") in
  w_req (fst (TLSCAP.CreateCertificate w)) = marshalled_request (w_req w).
Proof.
  intros w.
  exact (CreateCertificate_nulls_signature_in_place w (i := identity "alice") eq_refl).
Defined.

(** C5, as stated, fails: the request of ["alice"] arrives with a
    signature, and after the call the structure behind [req] has none. *)
Lemma CreateCertificate_request_signature_lost :
  let req := request "alice" pb.CryptoType_ECDSA "E57" "250" "55" in
  let after := w_req (fst (TLSCAP.CreateCertificate (world req))) in
  pb.TLSCertCreateReq.Sig req = Some (signature pb.CryptoType_ECDSA "250" "55")
  /\ pb.TLSCertCreateReq.Sig after = None
  /\ pb.TLSCertCreateReq.Sig after <> pb.TLSCertCreateReq.Sig req.
Proof.
  cbv zeta. repeat split. vm_compute. discriminate.
Qed.

(** C4, as stated, fails: ["250x"] does not parse, the key type and the key
    are valid, and the call does not fail with "signature does not verify":
    the digits read before the error are the [r] the key accepts, and the
    certificate is issued. *)
Lemma CreateCertificate_unparsable_signature_accepted :
  let req := request "alice" pb.CryptoType_ECDSA "E57" "250x" "55" in
  let run := TLSCAP.CreateCertificate (world req) in
  parse_fails (bytes_of_string "250x")
  /\ carries (world req) (identity "alice")
       (signature pb.CryptoType_ECDSA "250x" "55")
       (public_key pb.CryptoType_ECDSA "E57")
  /\ decodes (public_key pb.CryptoType_ECDSA "E57") key_E57
  /\ snd run =
       Returns (Some {| pb.TLSCertCreateResp.Cert :=
                          Some {| pb.Cert.Cert := alice_certificate |} |}, None)
  /\ snd run <> Returns (None, Some err_signature_does_not_verify)
  /\ In (EvCreateCertificate "alice" key_E57 x509_KeyUsageKeyAgreement 3600)
       (w_log (fst run)).
Proof.
  cbv zeta. split; [discriminate | ].
  split; [repeat split | ].
  split; [split; reflexivity | ].
  split; [reflexivity | ].
  split; [vm_compute; discriminate | ].
  vm_compute. do 9 right. left. reflexivity.
Qed.

End Examples.

(** ** Every path of [CreateCertificate] *)

Section Paths.
Context `{Libraries} `{Authority}.

(** Every call of [CreateCertificate] ends in one of the nine ways of
    [create_run]. *)
Lemma create_run_total (w : World) : create_run w (TLSCAP.CreateCertificate w).
Proof.
  destruct (pb.TLSCertCreateReq.Id (w_req w)) as [i | ] eqn:Hid;
    [ | rewrite (run_no_identity _ Hid); constructor; exact Hid ].
  destruct (pb.TLSCertCreateReq.Sig (w_req w)) as [sg | ] eqn:Hsig;
    [ | rewrite (run_no_signature _ Hid Hsig); econstructor; eassumption ].
  destruct (pb.TLSCertCreateReq.Pub (w_req w)) as [pk | ] eqn:Hpub;
    [ | rewrite (run_no_key _ Hid Hsig Hpub); econstructor; eassumption ].
  assert (Hreq : carries w i sg pk) by (repeat split; assumption).
  destruct (Z.eq_dec (pb.PublicKey.Type_ pk) pb.CryptoType_ECDSA) as [Hty | Hty];
    [ | rewrite (run_key_type Hreq Hty); econstructor; eassumption ].
  destruct (x509_ParsePKIXPublicKey (pb.PublicKey.Key pk)) as [pub [err | ]] eqn:Hparse.
  { assert (Herr : snd (x509_ParsePKIXPublicKey (pb.PublicKey.Key pk)) = Some err)
      by (rewrite Hparse; reflexivity).
    rewrite (run_key_bytes Hreq Hty Herr). econstructor; eassumption. }
  assert (Hkey : (exists k, pub = Some (KeyECDSA k)) \/ forall k, pub <> Some (KeyECDSA k)).
  { destruct pub as [[k | k | k] | ]; [left; exists k; reflexivity | | | ];
      right; intros k'; discriminate. }
  destruct Hkey as [[k ->] | Hother];
    [ | rewrite (run_other_key Hreq Hty Hparse Hother); econstructor; eassumption ].
  assert (Hdec : decodes pk k) by (split; assumption).
  destruct (ecdsa_Verify k (request_digest (w_req w)) (parsed_r sg) (parsed_s sg))
    eqn:Hver;
    [ | rewrite (run_signature Hreq Hdec Hver); econstructor; eassumption ].
  destruct (pb.TLSCertCreateReq.Ts (w_req w)) as [ts | ] eqn:Hts.
  - rewrite (run_issue Hreq Hdec Hver Hts). econstructor; eassumption.
  - rewrite (run_no_timestamp Hreq Hdec Hver Hts). econstructor; eassumption.
Qed.

(** Split a conjunction into its parts, leaving what they are made of. *)
Ltac conjuncts :=
  repeat match goal with |- _ /\ _ => split end;
  try assumption; try reflexivity.

(** Membership in a list of calls written out, by cases. *)
Ltac in_cases M :=
  unfold verification_calls, error_logged in M;
  repeat (apply in_app_or in M; destruct M as [M | M]);
  repeat (cbn in M;
          match type of M with
          | _ \/ _ => destruct M as [M | M]
          | context [match ?x with _ => _ end] => destruct x
          end);
  try discriminate; try contradiction.

(** X1.  When [CreateCertificate] or [ReadCertificate] returns, exactly one
    of its two results is nil: the response is nil if and only if the error
    is not. *)
Theorem handlers_return_response_or_error (w : World) (rd : pb.TLSCertReadReq.t) :
  (forall resp err,
     snd (TLSCAP.CreateCertificate w) = Returns (resp, err) ->
     (resp = None <-> err <> None))
  /\
  (forall cert err,
     snd (TLSCAP.ReadCertificate rd w) = Returns (cert, err) ->
     (cert = None <-> err <> None)).
Proof.
  split.
  - intros resp err.
    destruct (create_run_total w); cbn; try discriminate;
      try (intros E; inversion E; subst; split; congruence).
    unfold store_result.
    destruct (snd (snd (createCertificate _ _ _ _ _)));
      intros E; inversion E; subst; split; congruence.
  - intros cert err. destruct w as [r t l]; destruct rd as [[i | ]]; run;
      [ | discriminate ].
    destruct (snd (snd (readCertificate _ _ _))); cbn;
      intros E; inversion E; subst; split; congruence.
Qed.

(** X2.  Whatever the request, every call of the store's
    [createCertificate] that [CreateCertificate] makes has as its key an
    ECDSA key parsed from the key bytes of the request, for which
    [ecdsa.Verify] returned true on the digest of the request with [Sig] nil
    and the unmarshalled [r] and [s]; its identity and seconds are those of
    the request and its usage is key agreement.  [readCertificate] is never
    called. *)
Theorem CreateCertificate_store_call_verified (w : World) :
  exists calls,
    w_log (fst (TLSCAP.CreateCertificate w)) = w_log w ++ calls
    /\ (forall id usage, ~ In (EvReadCertificate id usage) calls)
    /\ (forall id k usage seconds,
          In (EvCreateCertificate id k usage seconds) calls ->
          exists i sg pk ts,
            carries w i sg pk
            /\ decodes pk k
            /\ pb.TLSCertCreateReq.Ts (w_req w) = Some ts
            /\ ecdsa_Verify k (request_digest (w_req w))
                 (parsed_r sg) (parsed_s sg) = true
            /\ id = pb.Identity.Id i
            /\ usage = x509_KeyUsageKeyAgreement
            /\ seconds = pb.Timestamp.Seconds ts).
Proof.
  destruct (create_run_total w); cbn;
    (eexists; split; [reflexivity | ]);
    (split; [intros id usage M | intros id k' usage seconds M]);
    in_cases M.
  inversion M; subst.
  exists i, sg, pk, ts. conjuncts.
Qed.

(** X3.  A call of [CreateCertificate] calls the store at most once, and
    when it does not call it the authority is left as it was. *)
Theorem CreateCertificate_store_called_at_most_once (w : World) :
  exists calls,
    w_log (fst (TLSCAP.CreateCertificate w)) = w_log w ++ calls
    /\ (List.length (store_calls calls) <= 1)%nat
    /\ (store_calls calls = [] ->
        w_tlsca (fst (TLSCAP.CreateCertificate w)) = w_tlsca w).
Proof.
  destruct (create_run_total w); cbn;
    (eexists; split; [reflexivity | ]);
    unfold store_calls, error_logged; cbn;
    try (split; [lia | reflexivity]).
  destruct (snd (snd (createCertificate _ _ _ _ _))); cbn;
    (split; [lia | discriminate]).
Qed.

(** X4.  Whenever [CreateCertificate] returns a response with nil error,
    the request carried identity, signature, key and timestamp, its
    signature verified under the ECDSA key parsed from it, and the response
    holds exactly the bytes the store returned for that identity, key,
    key-agreement usage and seconds. *)
Theorem CreateCertificate_response_from_store (w : World) resp :
  snd (TLSCAP.CreateCertificate w) = Returns (Some resp, None) ->
  exists i sg pk k ts raw,
    carries w i sg pk
    /\ decodes pk k
    /\ pb.TLSCertCreateReq.Ts (w_req w) = Some ts
    /\ ecdsa_Verify k (request_digest (w_req w)) (parsed_r sg) (parsed_s sg) = true
    /\ snd (createCertificate (ca (w_tlsca w)) (pb.Identity.Id i) k
              x509_KeyUsageKeyAgreement (pb.Timestamp.Seconds ts)) = (raw, None)
    /\ resp = {| pb.TLSCertCreateResp.Cert := Some {| pb.Cert.Cert := raw |} |}.
Proof.
  destruct (create_run_total w); cbn; try discriminate.
  unfold store_result.
  destruct (snd (createCertificate _ _ _ _ _)) as [raw [err | ]] eqn:Hres;
    cbn; try discriminate.
  intros E; inversion E; subst.
  exists i, sg, pk, k, ts, raw. conjuncts.
Qed.

(** X5.  A request that lacks its identity, its signature or its key makes
    [CreateCertificate] panic on a nil dereference before the key-type
    check: only the trace line and calls of [UnmarshalText] were made, and
    the authority is as it was. *)
Theorem CreateCertificate_missing_field (w : World) :
  pb.TLSCertCreateReq.Id (w_req w) = None
  \/ pb.TLSCertCreateReq.Sig (w_req w) = None
  \/ pb.TLSCertCreateReq.Pub (w_req w) = None ->
  snd (TLSCAP.CreateCertificate w) = Panics NilDereference
  /\ w_tlsca (fst (TLSCAP.CreateCertificate w)) = w_tlsca w
  /\ exists calls,
       w_log (fst (TLSCAP.CreateCertificate w)) = w_log w ++ calls
       /\ only_early_calls calls.
Proof.
  intros Hnil.
  destruct (create_run_total w); cbn;
    try (split; [reflexivity | split; [reflexivity | eexists; split; reflexivity]]);
    exfalso;
    match goal with C : carries _ _ _ _ |- _ => destruct C as (Hid & Hsig & Hpub) end;
    destruct Hnil as [E | [E | E]]; congruence.
Qed.

(** X6.  A request without identity is left untouched: the panic comes
    before [req.Sig = nil], so the structure still holds its signature, and
    no call but the trace line was made. *)
Theorem CreateCertificate_without_identity (w : World) :
  pb.TLSCertCreateReq.Id (w_req w) = None ->
  TLSCAP.CreateCertificate w =
    (logged w [EvTrace "grpc TLSCAP:CreateCertificate"], Panics NilDereference)
  /\ w_req (fst (TLSCAP.CreateCertificate w)) = w_req w.
Proof.
  intros Hid. rewrite (run_no_identity _ Hid). split; reflexivity.
Qed.

(** X7.  A request whose signature verifies but which has no timestamp
    makes [CreateCertificate] panic on a nil dereference in the arguments
    of the store call: the verification was carried out, the store was not
    called and the authority is as it was. *)
Theorem CreateCertificate_without_timestamp (w : World) i sg pk k :
  carries w i sg pk ->
  decodes pk k ->
  ecdsa_Verify k (request_digest (w_req w)) (parsed_r sg) (parsed_s sg) = true ->
  pb.TLSCertCreateReq.Ts (w_req w) = None ->
  TLSCAP.CreateCertificate w =
    (verified w (verification_calls (w_req w) sg pk k), Panics NilDereference)
  /\ no_call is_store_call (verification_calls (w_req w) sg pk k).
Proof.
  intros Hreq Hdec Hver Hts.
  rewrite (run_no_timestamp Hreq Hdec Hver Hts). split; reflexivity.
Qed.

(** X8.  [ReadCertificate] on a request without identity panics on a nil
    dereference before the store is called. *)
Theorem ReadCertificate_without_identity (req : pb.TLSCertReadReq.t) (w : World) :
  pb.TLSCertReadReq.Id req = None ->
  TLSCAP.ReadCertificate req w =
    (logged w [EvTrace "grpc TLSCAP:ReadCertificate"], Panics NilDereference).
Proof.
  intros Hid. destruct w as [r t l]. run. rewrite Hid. reflexivity.
Qed.

(** What a call leaves in a request that carried an identity. *)
Lemma request_after (w : World) i :
  pb.TLSCertCreateReq.Id (w_req w) = Some i ->
  w_req (fst (TLSCAP.CreateCertificate w)) = marshalled_request (w_req w).
Proof.
  intros Hid.
  destruct (create_run_total w); cbn; try reflexivity. congruence.
Qed.

(** X9.  The request structure cannot be used for a second call: after a
    call on a request with identity, on whatever path, a call on the same
    structure panics on a nil dereference at [sig.R], with no call made but
    the trace line and the authority as the first call left it. *)
Theorem CreateCertificate_second_call_panics (w : World) i :
  pb.TLSCertCreateReq.Id (w_req w) = Some i ->
  let w1 := fst (TLSCAP.CreateCertificate w) in
  TLSCAP.CreateCertificate w1 =
    (logged w1 [EvTrace "grpc TLSCAP:CreateCertificate"], Panics NilDereference).
Proof.
  intros Hid w1.
  assert (Hreq : w_req w1 = marshalled_request (w_req w))
    by (apply (request_after _ Hid)).
  assert (Hid1 : pb.TLSCertCreateReq.Id (w_req w1) = Some i)
    by (rewrite Hreq; exact Hid).
  assert (Hsig1 : pb.TLSCertCreateReq.Sig (w_req w1) = None)
    by (rewrite Hreq; reflexivity).
  rewrite (run_no_signature _ Hid1 Hsig1).
  unfold verified, logged. rewrite Hreq. reflexivity.
Qed.

(** X10.  When the key type is ECDSA and [x509.ParsePKIXPublicKey] returns
    an error, [CreateCertificate] returns that very error with a nil
    response, whatever key came with it, and nothing was marshalled, hashed
    or verified. *)
Theorem CreateCertificate_key_parse_error (w : World) i sg pk err :
  carries w i sg pk ->
  pb.PublicKey.Type_ pk = pb.CryptoType_ECDSA ->
  snd (x509_ParsePKIXPublicKey (pb.PublicKey.Key pk)) = Some err ->
  let calls := [EvTrace "grpc TLSCAP:CreateCertificate";
                EvUnmarshalText (pb.Signature.R sg);
                EvUnmarshalText (pb.Signature.S sg);
                EvParsePKIXPublicKey (pb.PublicKey.Key pk)] in
  TLSCAP.CreateCertificate w = (verified w calls, Returns (None, Some err))
  /\ no_call is_hash_call calls
  /\ no_call is_verify_call calls.
Proof.
  intros Hreq Hty Herr calls. subst calls.
  rewrite (run_key_bytes Hreq Hty Herr). repeat split.
Qed.

(** X11.  Whatever the request, what [CreateCertificate] marshals is the
    request with [Sig] nil, what it writes to the hash is the encoding of
    that structure, and what it passes to [ecdsa.Verify] is an ECDSA key
    parsed from the key bytes of the request, the digest of that encoding
    and the two unmarshalled values: the signature is never among the bytes
    hashed, on any path. *)
Theorem CreateCertificate_hashes_unsigned_request (w : World) :
  exists calls,
    w_log (fst (TLSCAP.CreateCertificate w)) = w_log w ++ calls
    /\ (forall req, In (EvMarshal req) calls ->
          req = marshalled_request (w_req w)
          /\ pb.TLSCertCreateReq.Sig req = None)
    /\ (forall p, In (EvHashWrite p) calls -> p = hashed_bytes (w_req w))
    /\ (forall k hash r s, In (EvVerify k hash r s) calls ->
          hash = request_digest (w_req w)
          /\ exists i sg pk,
               carries w i sg pk /\ decodes pk k
               /\ r = parsed_r sg /\ s = parsed_s sg).
Proof.
  destruct (create_run_total w); cbn;
    (eexists; split; [reflexivity | ]);
    (split; [intros req M | split; [intros p M | intros k' hash r s M]]);
    in_cases M;
    inversion M; subst; try (split; reflexivity); try reflexivity;
    (split; [reflexivity | ]); exists i, sg, pk; conjuncts.
Qed.

(** X12.  The signature counts only through the two values unmarshalled
    from it: a request whose signature texts are replaced by others that
    unmarshal to the same [r] and [s] gets the same result and leaves the
    authority in the same state. *)
Theorem CreateCertificate_signature_by_value (w : World) sg sg' :
  pb.TLSCertCreateReq.Sig (w_req w) = Some sg ->
  parsed_r sg' = parsed_r sg ->
  parsed_s sg' = parsed_s sg ->
  snd (TLSCAP.CreateCertificate (with_signature w sg'))
    = snd (TLSCAP.CreateCertificate w)
  /\ w_tlsca (fst (TLSCAP.CreateCertificate (with_signature w sg')))
    = w_tlsca (fst (TLSCAP.CreateCertificate w)).
Proof.
  unfold with_signature, parsed_r, parsed_s.
  destruct w as [[ts0 [i | ] [pk | ] sig0] t0 l0]; cbn; intros Hsig Hr Hs; subst;
    run; try (split; reflexivity).
  rewrite Hr, Hs.
  branch; split; reflexivity.
Qed.

(** X13.  Creation and lookup agree on what they ask of the store: when a
    verified request is issued the bytes [raw] and the store, asked for the
    identity of the request under key-agreement usage, returns [raw], then
    [ReadCertificate] for that identity, called after [CreateCertificate],
    returns the bytes that [CreateCertificate] returned. *)
Theorem CreateCertificate_then_ReadCertificate (w : World) i sg pk k ts c raw :
  carries w i sg pk ->
  decodes pk k ->
  ecdsa_Verify k (request_digest (w_req w)) (parsed_r sg) (parsed_s sg) = true ->
  pb.TLSCertCreateReq.Ts (w_req w) = Some ts ->
  createCertificate (ca (w_tlsca w)) (pb.Identity.Id i) k
    x509_KeyUsageKeyAgreement (pb.Timestamp.Seconds ts) = (c, (raw, None)) ->
  snd (readCertificate c (pb.Identity.Id i) x509_KeyUsageKeyAgreement) = (raw, None) ->
  let created := TLSCAP.CreateCertificate w in
  let read := TLSCAP.ReadCertificate {| pb.TLSCertReadReq.Id := Some i |}
                (fst created) in
  snd created =
    Returns (Some {| pb.TLSCertCreateResp.Cert :=
                       Some {| pb.Cert.Cert := raw |} |}, None)
  /\ snd read = Returns (Some {| pb.Cert.Cert := raw |}, None).
Proof.
  intros Hreq Hdec Hver Hts Hcreate Hread created read.
  subst read created. rewrite (run_issue Hreq Hdec Hver Hts).
  rewrite Hcreate. cbn. split; [reflexivity | ].
  run. cbn in Hread. rewrite Hread. reflexivity.
Qed.

(** X14.  The only error [CreateCertificate] ever passes to
    [Error.Println] is one the store's [createCertificate] returned, and it
    is then the error of the call: a request turned down for its key type,
    its key bytes or its signature is not logged as an error. *)
Theorem CreateCertificate_logs_store_errors_only (w : World) :
  exists calls,
    w_log (fst (TLSCAP.CreateCertificate w)) = w_log w ++ calls
    /\ (forall e, In (EvError e) calls ->
          snd (TLSCAP.CreateCertificate w) = Returns (None, Some e)
          /\ exists i k ts,
               pb.TLSCertCreateReq.Id (w_req w) = Some i
               /\ pb.TLSCertCreateReq.Ts (w_req w) = Some ts
               /\ snd (snd (createCertificate (ca (w_tlsca w)) (pb.Identity.Id i) k
                              x509_KeyUsageKeyAgreement (pb.Timestamp.Seconds ts)))
                  = Some e).
Proof.
  destruct (create_run_total w) as [ | | | | | | | | i sg pk k ts Hreq Hdec Hver Hts];
    cbn; (eexists; split; [reflexivity | ]); intros e M;
    try (in_cases M; fail).
  unfold store_result, error_logged in *.
  destruct (snd (snd (createCertificate _ _ _ _ _))) as [err | ] eqn:Herr;
    in_cases M.
  inversion M; subst.
  split; [reflexivity | ].
  exists i, k, ts. destruct Hreq as (Hid & _ & _). conjuncts.
Qed.

End Paths.

(** ** Further requests *)

Section Edges.
Import Example.
Open Scope string_scope.

Lemma CreateCertificate_response_from_store_witness :
  exists raw,
    wrap_TLSCertCreateResp alice_certificate
    = {| pb.TLSCertCreateResp.Cert := Some {| pb.Cert.Cert := raw |} |}.
Proof.
  assert (Hrun : snd (TLSCAP.CreateCertificate (world Cases.valid))
                 = Returns (Some (wrap_TLSCertCreateResp alice_certificate), None))
    by reflexivity.
  destruct (CreateCertificate_response_from_store (world Cases.valid) Hrun)
    as (_ & _ & _ & _ & _ & raw & _ & _ & _ & _ & _ & E).
  exists raw. exact E.
Defined.

Lemma CreateCertificate_missing_field_witness :
  snd (TLSCAP.CreateCertificate (world Cases.without_key)) = Panics NilDereference.
Proof.
  exact (proj1 (CreateCertificate_missing_field (world Cases.without_key)
                  (or_intror (or_intror eq_refl)))).
Defined.

Lemma CreateCertificate_without_identity_witness :
  pb.TLSCertCreateReq.Sig
    (w_req (fst (TLSCAP.CreateCertificate (world Cases.without_identity))))
  = Some (signature pb.CryptoType_ECDSA "250" "55").
Proof.
  rewrite (proj2 (CreateCertificate_without_identity
                    (world Cases.without_identity) eq_refl)).
  reflexivity.
Defined.

Lemma CreateCertificate_without_timestamp_witness :
  snd (TLSCAP.CreateCertificate (world Cases.without_timestamp))
  = Panics NilDereference.
Proof.
  set (w := world Cases.without_timestamp).
  assert (Hreq : carries w (identity "alice")
                   (signature pb.CryptoType_ECDSA "233" "55")
                   (public_key pb.CryptoType_ECDSA "E57"))
    by (repeat split; reflexivity).
  assert (Hdec : decodes (public_key pb.CryptoType_ECDSA "E57") key_E57)
    by (split; reflexivity).
  assert (Hver : ecdsa_Verify key_E57 (request_digest (w_req w))
                   (parsed_r (signature pb.CryptoType_ECDSA "233" "55"))
                   (parsed_s (signature pb.CryptoType_ECDSA "233" "55")) = true)
    by reflexivity.
  rewrite (proj1 (CreateCertificate_without_timestamp Hreq Hdec Hver eq_refl)).
  reflexivity.
Defined.

Lemma ReadCertificate_without_identity_witness :
  snd (TLSCAP.ReadCertificate {| pb.TLSCertReadReq.Id := None |}
         (world Cases.valid))
  = Panics NilDereference.
Proof.
  rewrite (ReadCertificate_without_identity
             {| pb.TLSCertReadReq.Id := None |} (world Cases.valid) eq_refl).
  reflexivity.
Defined.

Lemma CreateCertificate_second_call_panics_witness :
  snd (TLSCAP.CreateCertificate
         (fst (TLSCAP.CreateCertificate (world Cases.valid))))
  = Panics NilDereference.
Proof.
  pose proof (CreateCertificate_second_call_panics
                (world Cases.valid) (i := identity "alice") eq_refl) as W.
  cbv zeta in W. rewrite W. reflexivity.
Defined.

Lemma CreateCertificate_key_parse_error_witness :
  snd (TLSCAP.CreateCertificate
         (world (request "alice" pb.CryptoType_ECDSA "X" "250" "55")))
  = Returns (None, Some (errors_New "asn1: structure error")).
Proof.
  set (w := world (request "alice" pb.CryptoType_ECDSA "X" "250" "55")).
  assert (Hreq : carries w (identity "alice")
                   (signature pb.CryptoType_ECDSA "250" "55")
                   (public_key pb.CryptoType_ECDSA "X"))
    by (repeat split; reflexivity).
  pose proof (CreateCertificate_key_parse_error
                (err := errors_New "asn1: structure error")
                Hreq eq_refl eq_refl) as W.
  cbv zeta in W. rewrite (proj1 W). reflexivity.
Defined.

Lemma CreateCertificate_signature_by_value_witness :
  snd (TLSCAP.CreateCertificate
         (with_signature (world Cases.valid)
            (signature pb.CryptoType_ECDSA "+250" "55")))
  = snd (TLSCAP.CreateCertificate (world Cases.valid)).
Proof.
  exact (proj1 (CreateCertificate_signature_by_value
                  (world Cases.valid)
                  (sg := signature pb.CryptoType_ECDSA "250" "55")
                  (signature pb.CryptoType_ECDSA "+250" "55")
                  eq_refl eq_refl eq_refl)).
Defined.

Lemma CreateCertificate_then_ReadCertificate_witness :
  snd (TLSCAP.ReadCertificate
         {| pb.TLSCertReadReq.Id := Some (identity "alice") |}
         (fst (TLSCAP.CreateCertificate (world Cases.valid))))
  = Returns (Some {| pb.Cert.Cert := alice_certificate |}, None).
Proof.
  set (w := world Cases.valid).
  assert (Hreq : carries w (identity "alice")
                   (signature pb.CryptoType_ECDSA "250" "55")
                   (public_key pb.CryptoType_ECDSA "E57"))
    by (repeat split; reflexivity).
  assert (Hdec : decodes (public_key pb.CryptoType_ECDSA "E57") key_E57)
    by (split; reflexivity).
  assert (Hver : ecdsa_Verify key_E57 (request_digest (w_req w))
                   (parsed_r (signature pb.CryptoType_ECDSA "250" "55"))
                   (parsed_s (signature pb.CryptoType_ECDSA "250" "55")) = true)
    by reflexivity.
  pose proof (CreateCertificate_then_ReadCertificate
                (ts := hour)
                (c := fst (issue (ca (w_tlsca w)) "alice" key_E57
                             x509_KeyUsageKeyAgreement 3600))
                (raw := alice_certificate)
                Hreq Hdec Hver eq_refl eq_refl eq_refl) as W.
  cbv zeta in W. exact (proj2 W).
Defined.

End Edges.

(** ** Requests on which the handlers panic *)

Section Refutations.
Import Example.
Open Scope string_scope.

(** C3, as stated, fails: the key type of this request is RSA, not ECDSA,
    and it has no signature; the call does not return "unsupported key
    type" but panics at [sig.R], before the key-type check. *)
Lemma CreateCertificate_unsupported_key_type_not_reached :
  let req := {| pb.TLSCertCreateReq.Ts := Some hour;
                pb.TLSCertCreateReq.Id := Some (identity "alice");
                pb.TLSCertCreateReq.Pub := Some (public_key pb.CryptoType_RSA "R57");
                pb.TLSCertCreateReq.Sig := None |} in
  let run := TLSCAP.CreateCertificate (world req) in
  pb.PublicKey.Type_ (public_key pb.CryptoType_RSA "R57") <> pb.CryptoType_ECDSA
  /\ snd run = Panics NilDereference
  /\ snd run <> Returns (None, Some err_unsupported_key_type)
  /\ w_log (fst run) = [EvTrace "grpc TLSCAP:CreateCertificate"].
Proof.
  cbv zeta. split; [discriminate | ].
  split; [reflexivity | ].
  split; [vm_compute; discriminate | reflexivity].
Qed.

(** C6, as stated, fails: this request has identity, signature and an
    ECDSA key, and its signature verifies, but it has no timestamp; the
    store's [createCertificate] is not called, the call panics at
    [req.Ts.Seconds] and the authority is as it was. *)
Lemma CreateCertificate_verified_store_not_called :
  let w := world Cases.without_timestamp in
  let run := TLSCAP.CreateCertificate w in
  carries w (identity "alice") (signature pb.CryptoType_ECDSA "233" "55")
    (public_key pb.CryptoType_ECDSA "E57")
  /\ decodes (public_key pb.CryptoType_ECDSA "E57") key_E57
  /\ ecdsa_Verify key_E57 (request_digest (w_req w))
       (parsed_r (signature pb.CryptoType_ECDSA "233" "55"))
       (parsed_s (signature pb.CryptoType_ECDSA "233" "55")) = true
  /\ In (EvVerify key_E57 (request_digest (w_req w)) 233 55) (w_log (fst run))
  /\ snd run = Panics NilDereference
  /\ no_call is_store_call (w_log (fst run))
  /\ w_tlsca (fst run) = w_tlsca w.
Proof.
  cbv zeta.
  split; [repeat split | ].
  split; [split; reflexivity | ].
  split; [reflexivity | ].
  split; [vm_compute; do 8 right; left; reflexivity | ].
  repeat split.
Qed.

(** C7, as stated, fails: on a read request without identity
    [ReadCertificate] does not reach the store's [readCertificate]; it
    panics at [req.Id.Id] after the trace line. *)
Lemma ReadCertificate_store_not_reached :
  let w := world Cases.valid in
  let run := TLSCAP.ReadCertificate {| pb.TLSCertReadReq.Id := None |} w in
  snd run = Panics NilDereference
  /\ w_log (fst run) = [EvTrace "grpc TLSCAP:ReadCertificate"]
  /\ no_call is_store_call (w_log (fst run))
  /\ w_tlsca (fst run) = w_tlsca w.
Proof.
  cbv zeta. repeat split.
Qed.

End Refutations.
